(** * The college-recommendation workflow of [multi_Agents/multi_agent.py]

    A shallow embedding of the six workflow nodes, of the conditional edges
    between them and of the driver that threads the state dictionary through
    the graph.  Python dictionaries are finite maps from strings to values,
    exceptions are an explicit result, and the calls to the three external
    services are recorded in a trace. *)

From Stdlib Require Import ZArith String List Ascii.
From stdpp Require Import base option gmap strings list.

Set Warnings "-register-all".
Open Scope string_scope.

(** ** Python values *)

(** The values that travel through the state: [None], booleans, integers,
    strings, lists and dictionaries with string keys. *)
Inductive value : Type :=
  | VNone
  | VBool (b : bool)
  | VInt (z : Z)
  | VStr (s : string)
  | VList (l : list value)
  | VDict (d : gmap string value).

Abbreviation dict := (gmap string value).

(** A dictionary display [{k1: v1, ..., kn: vn}]; later keys win. *)
Definition dict_lit (items : list (string * value)) : dict :=
  fold_left (fun d kv => <[kv.1 := kv.2]> d) items ∅.

(** [{**d, **upd}], also [d.update(upd)]. *)
Definition dict_update (d upd : dict) : dict := upd ∪ d.

Inductive exn : Type :=
  | KeyError (key : string)
  | TypeError
  | AttributeError
  | ServiceError (msg : string)
  | GraphRecursionError.

Inductive outcome (A : Type) : Type :=
  | Returns (a : A)
  | Raises (e : exn).
Arguments Returns {A} a.
Arguments Raises {A} e.

(** Truth value of an object, as tested by [not], [and], [or] and [if]. *)
Definition truthy (v : value) : bool :=
  match v with
  | VNone => false
  | VBool b => b
  | VInt z => negb (z =? 0)%Z
  | VStr s => negb (String.eqb s "")
  | VList l => match l with [] => false | _ :: _ => true end
  | VDict d => match map_to_list d with [] => false | _ :: _ => true end
  end.

(** [d.get(k, dflt)] on a dictionary. *)
Definition dict_get (d : dict) (k : string) (dflt : value) : value :=
  default dflt (d !! k).

(** [d[k]] on a dictionary. *)
Definition dict_item (d : dict) (k : string) : outcome value :=
  match d !! k with
  | Some v => Returns v
  | None => Raises (KeyError k)
  end.

(** [v[k]] with a string key on an arbitrary object. *)
Definition subscript (v : value) (k : string) : outcome value :=
  match v with
  | VDict d => dict_item d k
  | _ => Raises TypeError
  end.

(** [v.get(k, dflt)] on an arbitrary object. *)
Definition get_method (v : value) (k : string) (dflt : value) : outcome value :=
  match v with
  | VDict d => Returns (dict_get d k dflt)
  | _ => Raises AttributeError
  end.

(** [len(v)]: only strings, lists and dictionaries have a length.  The
    workflow only prints the number, so the model keeps whether the call
    raises. *)
Definition len_check (v : value) : outcome unit :=
  match v with
  | VStr _ | VList _ | VDict _ => Returns tt
  | _ => Raises TypeError
  end.

(** [needle in hay] on strings. *)
Fixpoint contains (needle hay : string) : bool :=
  String.prefix needle hay ||
  match hay with
  | EmptyString => false
  | String _ rest => contains needle rest
  end.

Definition is_str (v : value) (s : string) : bool :=
  match v with
  | VStr s' => String.eqb s' s
  | _ => false
  end.

(** [needle in v] for a string [needle] and an arbitrary object [v]. *)
Definition py_in (needle : string) (v : value) : outcome bool :=
  match v with
  | VStr s => Returns (contains needle s)
  | VList l => Returns (existsb (fun x => is_str x needle) l)
  | VDict d => Returns (bool_decide (is_Some (d !! needle)))
  | _ => Raises TypeError
  end.

(** ASCII case folding, the part of [str.lower] that matters for the
    keywords of the comparison check. *)
Definition ascii_lower_char (c : ascii) : ascii :=
  let n := nat_of_ascii c in
  if (65 <=? n)%nat && (n <=? 90)%nat then ascii_of_nat (n + 32) else c.

Fixpoint ascii_lower (s : string) : string :=
  match s with
  | EmptyString => EmptyString
  | String c rest => String (ascii_lower_char c) (ascii_lower rest)
  end.

(** ** Computations that call services and may raise *)

Inductive service : Type :=
  | Classification
  | PrimaryRetrieval
  | FallbackRetrieval.

Record call : Type := Call { callee : service; argument : value }.

(** A computation yields the calls it made, in order, and its outcome. *)
Definition comp (A : Type) : Type := (list call * outcome A)%type.

Definition ret {A} (a : A) : comp A := ([], Returns a).

Definition lift {A} (o : outcome A) : comp A := ([], o).

Definition bind {A B} (m : comp A) (k : A -> comp B) : comp B :=
  match m with
  | (t, Returns a) => let '(t', r) := k a in ((t ++ t')%list, r)
  | (t, Raises e) => (t, Raises e)
  end.

(** [try: body except Exception: handler]. *)
Definition try_except {A} (body : comp A) (handler : exn -> comp A) : comp A :=
  match body with
  | (t, Returns a) => (t, Returns a)
  | (t, Raises e) => let '(t', r) := handler e in ((t ++ t')%list, r)
  end.

Definition invoke (s : service) (f : value -> outcome value) (arg : value)
  : comp value :=
  ([Call s arg], f arg).

Declare Scope comp_scope.
Delimit Scope comp_scope with comp.
Notation "'let!' x ':=' m 'in' k" := (bind m (fun x => k))
  (at level 10, x name, m at level 100, k at level 200) : comp_scope.
Open Scope comp_scope.

(** ** The state and the nodes *)

(** The keys of [RecommendationState]. *)
Definition RecommendationState : list string :=
  [ "user_query"; "is_college_related"; "is_comparison_query";
    "safety_check_passed"; "combined_agent_results"; "snowflake_results";
    "rag_results"; "web_results"; "final_output"; "early_response";
    "fallback_used"; "fallback_message" ].

(** [STANDARD_RESPONSE] of [detect_comparison_node]. *)
Definition COMPARISON_RESPONSE : string :=
  "I specialize in college recommendations, not comparisons. Please ask about specific programs or colleges.".

(** [STANDARD_RESPONSE] of [check_prompt_node]. *)
Definition REJECTION_RESPONSE : string :=
  "Sorry I can't do that. I can assist you with college recommendations.".

Definition comparison_keywords : list string :=
  [ "compare"; "vs"; "versus"; "difference"; "better"; "worse"; "ranking" ].

Definition PRIMARY_ERROR_MESSAGE : string := "Error processing your request".

Definition NO_DATA_SENTINEL : string := "❌ No valid data found".

Definition WEB_FALLBACK_MESSAGE : string :=
  "We're using web search results as a fallback since we couldn't find relevant information in our databases.".

(** The three services the workflow calls.  Each maps its argument to the
    value it returns or the exception it raises. *)
Record services : Type := Services {
  check_and_classify_query : value -> outcome value;
  validate_and_compare : value -> outcome value;
  recommend : value -> outcome value
}.

Section Workflow.

(** [str.lower]. *)
Variable lower : string -> string.

Variable svc : services.

Definition str_lower (v : value) : outcome string :=
  match v with
  | VStr s => Returns (lower s)
  | _ => Raises AttributeError
  end.

Definition is_comparison (query_lower : string) : bool :=
  existsb (fun keyword => contains keyword query_lower) comparison_keywords.

Definition detect_comparison_node (state : dict) : comp dict :=
  let! q := lift (dict_item state "user_query") in
  let! query_lower := lift (str_lower q) in
  let is_comparison := is_comparison query_lower in
  ret (dict_lit
    [ ("is_comparison_query", VBool is_comparison);
      ("early_response",
       if is_comparison then VStr COMPARISON_RESPONSE else VNone) ]).

Definition check_prompt_node (state : dict) : comp dict :=
  let! q := lift (dict_item state "user_query") in
  if truthy (dict_get state "is_comparison_query" (VBool false)) then
    ret (dict_lit
      [ ("is_college_related", VBool false);
        ("safety_check_passed", VBool false);
        ("early_response",
         dict_get state "early_response" (VStr REJECTION_RESPONSE)) ])
  else
    let! classification :=
      invoke Classification (check_and_classify_query svc) q in
    let! _ := lift (subscript classification "is_college_related") in
    let! _ := lift (subscript classification "safety_check_passed") in
    let! context := lift (subscript classification "context") in
    if negb (is_str context "college") then
      let! safety := lift (subscript classification "safety_check_passed") in
      let! response :=
        lift (get_method classification "response" (VStr REJECTION_RESPONSE)) in
      ret (dict_lit
        [ ("is_college_related", VBool false);
          ("safety_check_passed", safety);
          ("early_response", response) ])
    else
      ret (dict_lit
        [ ("is_college_related", VBool true);
          ("safety_check_passed", VBool true) ]).

Definition query_combined_agent_node (state : dict) : comp dict :=
  try_except
    (let! q := lift (dict_item state "user_query") in
     let! result := invoke PrimaryRetrieval (validate_and_compare svc) q in
     let! c := lift (get_method result "combined_agent_results" (VStr "")) in
     let! _ := lift (len_check c) in
     let! _ := lift (get_method result "snowflake_results" VNone) in
     let! s := lift (get_method result "snowflake_results" (VList [])) in
     let! _ := lift (len_check s) in
     let! _ := lift (get_method result "rag_results" VNone) in
     let! r := lift (get_method result "rag_results" (VList [])) in
     let! _ := lift (len_check r) in
     let! combined := lift (subscript result "combined_agent_results") in
     let! snowflake :=
       lift (get_method result "snowflake_results" (VList [])) in
     let! rag := lift (get_method result "rag_results" (VList [])) in
     ret (dict_update state (dict_lit
       [ ("combined_agent_results", combined);
         ("snowflake_results", snowflake);
         ("rag_results", rag);
         ("fallback_used", VBool false) ])))
    (fun _ =>
     ret (dict_update state (dict_lit
       [ ("combined_agent_results", VNone);
         ("snowflake_results", VList []);
         ("rag_results", VList []);
         ("fallback_used", VBool true);
         ("fallback_message", VStr PRIMARY_ERROR_MESSAGE) ]))).

Definition check_results_node (state : dict) : comp dict :=
  let no_data :=
    negb (truthy (dict_get state "snowflake_results" VNone)) &&
    negb (truthy (dict_get state "rag_results" VNone)) in
  let! combined_empty :=
    if truthy (dict_get state "combined_agent_results" VNone) then
      let! c := lift (dict_item state "combined_agent_results") in
      lift (py_in NO_DATA_SENTINEL c)
    else ret false in
  if no_data || combined_empty then
    ret (dict_lit [ ("should_fallback", VBool true) ])
  else
    ret (dict_lit [ ("should_fallback", VBool false) ]).

(** The record the fallback stage builds from the web answer. *)
Definition web_record (response analyzed : value) : value :=
  VDict (dict_lit
    [ ("text", response);
      ("metadata", VDict (dict_lit
         [ ("source", VStr "web_search_fallback");
           ("results_analyzed", analyzed) ])) ]).

(** Building the [WebSearchRecommender] and awaiting its [recommend] are
    one call here: both sit inside the [try].  [json.dumps] accepts every
    value of the model, so the print after it cannot raise. *)
Definition query_web_node (state : dict) : comp dict :=
  try_except
    (let! q := lift (dict_item state "user_query") in
     let! result := invoke FallbackRetrieval (recommend svc) q in
     let! response := lift (subscript result "response") in
     let! analyzed := lift (subscript result "results_analyzed") in
     let formatted_results := VList [ web_record response analyzed ] in
     ret (dict_lit
       [ ("web_results", formatted_results);
         ("fallback_used", VBool true);
         ("fallback_message", VStr WEB_FALLBACK_MESSAGE) ]))
    (fun _ =>
     ret (dict_lit
       [ ("web_results", VList []);
         ("fallback_used", VBool false) ])).

Definition compile_results (state : dict) : comp dict :=
  let! q := lift (dict_item state "user_query") in
  let output := dict_lit
    [ ("query", q);
      ("combined_output", dict_get state "combined_agent_results" VNone);
      ("snowflake", dict_get state "snowflake_results" (VList []));
      ("rag", dict_get state "rag_results" (VList [])) ] in
  let output :=
    if truthy (dict_get state "fallback_used" (VBool false)) then
      dict_update output (dict_lit
        [ ("web", dict_get state "web_results" (VList []));
          ("fallback_used", VBool true);
          ("fallback_message", dict_get state "fallback_message" (VStr "")) ])
    else
      dict_update output (dict_lit
        [ ("web", VList []);
          ("fallback_used", VBool false) ]) in
  ret (dict_lit [ ("final_output", VDict output) ]).

(** ** The graph *)

Inductive node : Type :=
  | detect_comparison
  | gatekeeper
  | combined_agent
  | check_results
  | web
  | compile.

Inductive destination : Type :=
  | Goto (n : node)
  | END.

(** [workflow.add_node(name, function)]. *)
Definition node_function (n : node) : dict -> comp dict :=
  match n with
  | detect_comparison => detect_comparison_node
  | gatekeeper => check_prompt_node
  | combined_agent => query_combined_agent_node
  | check_results => check_results_node
  | web => query_web_node
  | compile => compile_results
  end.

Definition node_named (name : string) : outcome destination :=
  if String.eqb name "detect_comparison" then Returns (Goto detect_comparison)
  else if String.eqb name "gatekeeper" then Returns (Goto gatekeeper)
  else if String.eqb name "combined_agent" then Returns (Goto combined_agent)
  else if String.eqb name "check_results" then Returns (Goto check_results)
  else if String.eqb name "web" then Returns (Goto web)
  else if String.eqb name "compile" then Returns (Goto compile)
  else Raises (KeyError name).

(** The path map of a conditional edge, from the label the routing function
    returns to the destination. *)
Fixpoint path_lookup (path_map : list (string * destination)) (label : string)
  : outcome destination :=
  match path_map with
  | [] => Raises (KeyError label)
  | (l, d) :: rest => if String.eqb l label then Returns d
                      else path_lookup rest label
  end.

(** The routing functions of the three conditional edges. *)
Definition after_detect_comparison (state : dict) : outcome string :=
  Returns (if truthy (dict_get state "is_comparison_query" (VBool false))
           then "early_exit" else "gatekeeper").

Definition after_gatekeeper (state : dict) : outcome string :=
  match dict_item state "is_college_related" with
  | Raises e => Raises e
  | Returns related =>
      if negb (truthy related) then Returns "early_exit"
      else
        match dict_item state "safety_check_passed" with
        | Raises e => Raises e
        | Returns safe =>
            Returns (if negb (truthy safe) then "early_exit"
                     else "combined_agent")
        end
  end.

Definition after_check_results (state : dict) : outcome string :=
  Returns (if truthy (dict_get state "should_fallback" (VBool false))
           then "web" else "compile").

Definition route (n : node) (state : dict) : outcome destination :=
  match n with
  | detect_comparison =>
      match after_detect_comparison state with
      | Returns label =>
          path_lookup [ ("early_exit", END);
                        ("gatekeeper", Goto gatekeeper) ] label
      | Raises e => Raises e
      end
  | gatekeeper =>
      match after_gatekeeper state with
      | Returns label =>
          path_lookup [ ("early_exit", END);
                        ("combined_agent", Goto combined_agent) ] label
      | Raises e => Raises e
      end
  | combined_agent => Returns (Goto check_results)
  | check_results =>
      match after_check_results state with
      | Returns label => node_named label
      | Raises e => Raises e
      end
  | web => Returns (Goto compile)
  | compile => Returns END
  end.

(** ** The driver *)

(** A node returns a partial update.  The keys of [RecommendationState]
    overwrite the state; any other key is not stored. *)
Definition apply_update (state update : dict) : dict :=
  filter (fun kv : string * value => kv.1 ∈ RecommendationState) update
    ∪ state.

(** The routing function after a node sees the updated state together with
    the keys of the node's answer that the state does not hold. *)
Definition branch_view (state' update : dict) : dict := state' ∪ update.

(** Upper bound on the number of nodes run in one invocation. *)
Definition recursion_limit : nat := 25.

Fixpoint run_from (budget : nat) (n : node) (state : dict) : comp dict :=
  match budget with
  | O => lift (Raises GraphRecursionError)
  | S budget' =>
      let! update := node_function n state in
      let state' := apply_update state update in
      let! dest := lift (route n (branch_view state' update)) in
      match dest with
      | END => ret state'
      | Goto n' => run_from budget' n' state'
      end
  end.

(** [app.ainvoke(input)], entered at [detect_comparison]. *)
Definition ainvoke (input : dict) : comp dict :=
  run_from recursion_limit detect_comparison (apply_update ∅ input).

(** The input [test_workflow] builds for a query. *)
Definition initial_state (query : string) : dict :=
  dict_lit
    [ ("user_query", VStr query);
      ("is_college_related", VBool false);
      ("safety_check_passed", VBool false);
      ("combined_agent_results", VNone);
      ("snowflake_results", VList []);
      ("rag_results", VList []);
      ("web_results", VList []);
      ("final_output", VNone);
      ("early_response", VNone);
      ("fallback_used", VBool false);
      ("fallback_message", VNone) ].

(** The input of the [__main__] block, which leaves out the two primary
    result sets. *)
Definition main_initial_state (query : string) : dict :=
  dict_lit
    [ ("user_query", VStr query);
      ("is_college_related", VBool false);
      ("safety_check_passed", VBool false);
      ("early_response", VNone);
      ("combined_agent_results", VNone);
      ("web_results", VList []);
      ("final_output", VNone);
      ("fallback_used", VBool false);
      ("fallback_message", VNone) ].

(** One pipeline invocation for a query: [app.ainvoke(initial_state)]. *)
Definition run (query : string) : comp dict :=
  ainvoke (initial_state query).

(** ** The callers *)

(** [v.keys()], a method of dictionaries.  As for [len], the model keeps
    whether the call raises. *)
Definition keys_check (v : value) : outcome unit :=
  match v with
  | VDict _ => Returns tt
  | _ => Raises AttributeError
  end.

(** [v[:n]].  Strings and lists can be sliced; a dictionary has no slice
    among its keys ([TypeError], for the slice cannot be hashed; a
    [KeyError] from Python 3.12 on). *)
Definition slice_check (v : value) : outcome unit :=
  match v with
  | VStr _ | VList _ => Returns tt
  | _ => Raises TypeError
  end.

(** [test_workflow(query)]: the invocation, then the three prints that read
    [result['final_output']]. *)
Definition test_workflow (query : string) : comp unit :=
  let! result := ainvoke (initial_state query) in
  let! final_output := lift (dict_item result "final_output") in
  let! _ := lift (keys_check final_output) in
  let! final_output := lift (dict_item result "final_output") in
  let! snowflake := lift (get_method final_output "snowflake" (VList [])) in
  let! _ := lift (slice_check snowflake) in
  let! final_output := lift (dict_item result "final_output") in
  let! rag := lift (get_method final_output "rag" (VList [])) in
  let! _ := lift (slice_check rag) in
  ret tt.

(** The loop of the [__main__] block over the web results: each line shows
    the first 200 characters of [res.get('text', '')]. *)
Fixpoint show_web_results (items : list value) : comp unit :=
  match items with
  | [] => ret tt
  | res :: rest =>
      let! text := lift (get_method res "text" (VStr "")) in
      let! _ := lift (slice_check text) in
      show_web_results rest
  end.

(** [for i, res in enumerate(final_output['web'], 1)], entered only when
    [final_output.get('web')] is true.  A string or a dictionary that is not
    empty yields strings, and a string has no [get]; numbers and booleans
    cannot be iterated. *)
Definition show_web (w : value) : comp unit :=
  match w with
  | VList items => show_web_results items
  | VStr _ | VDict _ => lift (Raises AttributeError)
  | _ => lift (Raises TypeError)
  end.

(** The [else] branch of the [__main__] block, on
    [final_output = result.get('final_output', {})]. *)
Definition show_final_output (final_output : value) : comp unit :=
  let! used := lift (get_method final_output "fallback_used" VNone) in
  let! _ :=
    if truthy used then
      let! _ := lift (get_method final_output "fallback_message" (VStr "")) in
      let! w := lift (get_method final_output "web" VNone) in
      if truthy w then
        let! w := lift (subscript final_output "web") in
        show_web w
      else ret tt
    else ret tt in
  let! combined := lift (get_method final_output "combined_output" VNone) in
  if truthy combined then
    let! _ := lift (subscript final_output "combined_output") in
    ret tt
  else ret tt.

(** What the [__main__] block does with the result of an invocation. *)
Definition report (result : dict) : comp unit :=
  if truthy (dict_get result "early_response" VNone) then
    let! _ := lift (dict_item result "early_response") in
    ret tt
  else show_final_output (dict_get result "final_output" (VDict ∅)).

(** One turn of the loop of the [__main__] block. *)
Definition main_block (query : string) : comp unit :=
  let! result := ainvoke (main_initial_state query) in
  report result.

End Workflow.

(** ** Vocabulary of the properties *)

(** [needle] occurs in [hay]. *)
Definition substring (needle hay : string) : Prop :=
  exists pre post, hay = pre ++ needle ++ post.

Definition service_eqb (a b : service) : bool :=
  match a, b with
  | Classification, Classification => true
  | PrimaryRetrieval, PrimaryRetrieval => true
  | FallbackRetrieval, FallbackRetrieval => true
  | _, _ => false
  end.

(** Number of calls to a service in a trace. *)
Definition calls_to (s : service) (t : list call) : nat :=
  length (List.filter (fun c => service_eqb (callee c) s) t).

Definition sized (v : value) : bool :=
  match v with
  | VStr _ | VList _ | VDict _ => true
  | _ => false
  end.

(** What [check_prompt_node] makes of the classification it receives. *)
Inductive verdict : Type :=
  | Accepts
  | Rejects (safety response : value)
  | Fails (e : exn).

Definition classification_verdict (o : outcome value) : verdict :=
  match o with
  | Raises e => Fails e
  | Returns (VDict d) =>
      match d !! "is_college_related" with
      | None => Fails (KeyError "is_college_related")
      | Some _ =>
          match d !! "safety_check_passed" with
          | None => Fails (KeyError "safety_check_passed")
          | Some safety =>
              match d !! "context" with
              | None => Fails (KeyError "context")
              | Some context =>
                  if is_str context "college" then Accepts
                  else Rejects safety
                         (dict_get d "response" (VStr REJECTION_RESPONSE))
              end
          end
      end
  | Returns _ => Fails TypeError
  end.

(** The answer of the primary retrieval that the stage accepts: a dictionary
    with a sized summary and sized result sets (absent sets count as empty). *)
Definition primary_success (o : outcome value)
  : option (value * value * value) :=
  match o with
  | Returns (VDict d) =>
      match d !! "combined_agent_results" with
      | Some c =>
          let s := dict_get d "snowflake_results" (VList []) in
          let r := dict_get d "rag_results" (VList []) in
          if sized c && sized s && sized r then Some (c, s, r) else None
      | None => None
      end
  | _ => None
  end.

(** The answer of the fallback retrieval that the stage accepts. *)
Definition web_success (o : outcome value) : option (value * value) :=
  match o with
  | Returns (VDict d) =>
      match d !! "response", d !! "results_analyzed" with
      | Some response, Some analyzed => Some (response, analyzed)
      | _, _ => None
      end
  | _ => None
  end.

Definition primary_update (o : outcome value) : dict :=
  match primary_success o with
  | Some (c, s, r) =>
      dict_lit
        [ ("combined_agent_results", c);
          ("snowflake_results", s);
          ("rag_results", r);
          ("fallback_used", VBool false) ]
  | None =>
      dict_lit
        [ ("combined_agent_results", VNone);
          ("snowflake_results", VList []);
          ("rag_results", VList []);
          ("fallback_used", VBool true);
          ("fallback_message", VStr PRIMARY_ERROR_MESSAGE) ]
  end.

Definition web_update (o : outcome value) : dict :=
  match web_success o with
  | Some (response, analyzed) =>
      dict_lit
        [ ("web_results", VList [ web_record response analyzed ]);
          ("fallback_used", VBool true);
          ("fallback_message", VStr WEB_FALLBACK_MESSAGE) ]
  | None =>
      dict_lit
        [ ("web_results", VList []);
          ("fallback_used", VBool false) ]
  end.

(** The condition of [check_results_node] on the three fields it reads. *)
Definition fallback_condition (snowflake rag combined : value) : bool :=
  negb (truthy snowflake) && negb (truthy rag)
  || truthy combined
     && match py_in NO_DATA_SENTINEL combined with
        | Returns b => b
        | Raises _ => false
        end.

(** The classification reports the query as in-domain: it has the three
    fields the gatekeeper reads and its context is [college]. *)
Definition in_domain (o : outcome value) : Prop :=
  exists d related safety,
    o = Returns (VDict d) /\
    d !! "is_college_related" = Some related /\
    d !! "safety_check_passed" = Some safety /\
    d !! "context" = Some (VStr "college").

(** A field of the [final_output] a run returns, if any. *)
Definition final_field (r : comp dict) (k : string) : option value :=
  match r.2 with
  | Returns st =>
      match st !! "final_output" with
      | Some (VDict d) => d !! k
      | _ => None
      end
  | Raises _ => None
  end.

(** What a caller sees of the primary failure if the error message of the
    primary stage reaches [final_output]. *)
Definition reports_primary_failure (r : comp dict) : Prop :=
  final_field r "fallback_used" = Some (VBool true) /\
  final_field r "fallback_message" = Some (VStr PRIMARY_ERROR_MESSAGE) /\
  calls_to FallbackRetrieval r.1 = 1.

Definition is_null (v : value) : bool :=
  match v with
  | VNone => true
  | _ => false
  end.

(** Exactly one of [early_response] and [final_output] is set. *)
Definition exactly_one_result (st : dict) : Prop :=
  is_null (dict_get st "early_response" VNone)
  <> is_null (dict_get st "final_output" VNone).

(** A computation that follows a recorded call. *)
Definition after_call {A} (c : call) (m : comp A) : comp A :=
  (c :: m.1, m.2).

Definition after_trace {A} (t : list call) (m : comp A) : comp A :=
  ((t ++ m.1)%list, m.2).

(** A state given field by field. *)
Definition state_of (query comparison related safety combined snowflake rag
                     web final early fallback message : value) : dict :=
  dict_lit
    [ ("user_query", query);
      ("is_comparison_query", comparison);
      ("is_college_related", related);
      ("safety_check_passed", safety);
      ("combined_agent_results", combined);
      ("snowflake_results", snowflake);
      ("rag_results", rag);
      ("web_results", web);
      ("final_output", final);
      ("early_response", early);
      ("fallback_used", fallback);
      ("fallback_message", message) ].

(** The record [compile_results] builds from the fields it reads. *)
Definition final_output_of (query combined snowflake rag web fallback
                            message : value) : dict :=
  if truthy fallback then
    dict_lit
      [ ("query", query); ("combined_output", combined);
        ("snowflake", snowflake); ("rag", rag); ("web", web);
        ("fallback_used", VBool true); ("fallback_message", message) ]
  else
    dict_lit
      [ ("query", query); ("combined_output", combined);
        ("snowflake", snowflake); ("rag", rag); ("web", VList []);
        ("fallback_used", VBool false) ].

(** The paths through the graph, with the trace and the final state of
    each.  [run_paths] below proves that [run] follows them. *)
Definition path_result (lower : string -> string) (svc : services)
                       (q : string) : comp dict :=
  let query := VStr q in
  let C := Call Classification query in
  let P := Call PrimaryRetrieval query in
  let W := Call FallbackRetrieval query in
  if is_comparison (lower q) then
    ([], Returns (state_of query (VBool true) (VBool false) (VBool false)
                    VNone (VList []) (VList []) (VList []) VNone
                    (VStr COMPARISON_RESPONSE) (VBool false) VNone))
  else
    match classification_verdict (check_and_classify_query svc query) with
    | Fails e => ([C], Raises e)
    | Rejects safety response =>
        ([C], Returns (state_of query (VBool false) (VBool false) safety
                         VNone (VList []) (VList []) (VList []) VNone
                         response (VBool false) VNone))
    | Accepts =>
        let '(c, s, r, fallback0, message0) :=
          match primary_success (validate_and_compare svc query) with
          | Some (c, s, r) => (c, s, r, VBool false, VNone)
          | None => (VNone, VList [], VList [], VBool true,
                     VStr PRIMARY_ERROR_MESSAGE)
          end in
        if fallback_condition s r c then
          let '(w, fallback, message) :=
            match web_success (recommend svc query) with
            | Some (response, analyzed) =>
                (VList [ web_record response analyzed ], VBool true,
                 VStr WEB_FALLBACK_MESSAGE)
            | None => (VList [], VBool false, message0)
            end in
          ([C; P; W],
           Returns (state_of query (VBool false) (VBool true) (VBool true)
                      c s r w
                      (VDict (final_output_of query c s r w fallback message))
                      VNone fallback message))
        else
          ([C; P],
           Returns (state_of query (VBool false) (VBool true) (VBool true)
                      c s r (VList [])
                      (VDict (final_output_of query c s r (VList [])
                                fallback0 message0))
                      VNone fallback0 message0))
    end.

(** The paths from the input of the [__main__] block: as [path_result],
    but an early exit leaves the two result sets absent.
    [main_paths] below proves that the invocation follows them. *)
Definition main_path_result (lower : string -> string) (svc : services)
                            (q : string) : comp dict :=
  match path_result lower svc q with
  | (t, Returns st) =>
      (t, Returns (if is_null (dict_get st "final_output" VNone)
                   then delete "snowflake_results"
                          (delete "rag_results" st)
                   else st))
  | (t, Raises e) => (t, Raises e)
  end.

(** A state of the pipeline holds keys of [RecommendationState] only. *)
Definition pipeline_state (st : dict) : Prop :=
  forall k, is_Some (st !! k) -> k ∈ RecommendationState.

(** ** Sample services and runs *)

Definition accept_classification : value :=
  VDict (dict_lit
    [ ("is_college_related", VBool true);
      ("safety_check_passed", VBool true);
      ("context", VStr "college") ]).

Definition reject_classification (extra : list (string * value)) : value :=
  VDict (dict_lit
    ([ ("is_college_related", VBool false);
       ("safety_check_passed", VBool true);
       ("context", VStr "other") ] ++ extra)).

Definition sample_record : value :=
  VDict (dict_lit [ ("text", VStr "MBA Finance") ]).

Definition primary_answer (summary snowflake rag : value) : value :=
  VDict (dict_lit
    [ ("combined_agent_results", summary);
      ("snowflake_results", snowflake);
      ("rag_results", rag) ]).

Definition web_answer : value :=
  VDict (dict_lit
    [ ("response", VStr "Stanford GSB offers a finance track.");
      ("results_analyzed", VInt 5) ]).

Definition sample_query : string :=
  "What MBA programs does Stanford offer for finance specialization?".

(** Services that answer every query the same way. *)
Definition constant_services (c p w : outcome value) : services :=
  Services (fun _ => c) (fun _ => p) (fun _ => w).

Definition service_down : exn := ServiceError "connection refused".

(** Services that answer the sample query and refuse every other one. *)
Definition only_sample (answer : value) (arg : value) : outcome value :=
  if is_str arg sample_query then Returns answer else Raises service_down.

Definition svc_ok : services :=
  constant_services
    (Returns accept_classification)
    (Returns (primary_answer (VStr "Stanford MBA")
                (VList [sample_record]) (VList [])))
    (Returns web_answer).

Definition svc_sample_only : services :=
  Services
    (only_sample accept_classification)
    (only_sample (primary_answer (VStr "Stanford MBA")
                    (VList [sample_record]) (VList [])))
    (only_sample web_answer).

Definition svc_primary_down (w : outcome value) : services :=
  constant_services (Returns accept_classification) (Raises service_down) w.

(** The final state of the sample query with the services [svc_ok], and
    the state in which a comparison query ends. *)
Definition sample_final_state : dict :=
  state_of (VStr sample_query) (VBool false) (VBool true) (VBool true)
    (VStr "Stanford MBA") (VList [sample_record]) (VList []) (VList [])
    (VDict (final_output_of (VStr sample_query) (VStr "Stanford MBA")
              (VList [sample_record]) (VList []) (VList []) (VBool false)
              VNone))
    VNone (VBool false) VNone.

Definition comparison_final_state (q : string) : dict :=
  state_of (VStr q) (VBool true) (VBool false) (VBool false) VNone
    (VList []) (VList []) (VList []) VNone (VStr COMPARISON_RESPONSE)
    (VBool false) VNone.

Definition sample_trace : list call :=
  [ Call Classification (VStr sample_query);
    Call PrimaryRetrieval (VStr sample_query) ].

(** * Properties *)

(** Closes an equation between closed terms, or terms closed up to the
    values they carry, by evaluation. *)
Ltac by_compute := vm_compute; reflexivity.

Ltac by_vm :=
  match goal with |- _ = ?rhs => vm_cast_no_check (eq_refl rhs) end.

(** ** Computations *)

Lemma bind_returns {A B} (a : A) (k : A -> comp B) :
  bind (lift (Returns a)) k = k a.
Proof. unfold bind, lift. destruct (k a) as [t r]. reflexivity. Qed.

Lemma bind_ret {A B} (a : A) (k : A -> comp B) : bind (ret a) k = k a.
Proof. apply bind_returns. Qed.

Lemma bind_raises {A B} (e : exn) (k : A -> comp B) :
  bind (lift (Raises e)) k = ([], Raises e).
Proof. reflexivity. Qed.

Lemma bind_invoke {B} s f arg (k : value -> comp B) :
  bind (invoke s f arg) k =
  match f arg with
  | Returns v => after_call (Call s arg) (k v)
  | Raises e => ([Call s arg], Raises e)
  end.
Proof.
  unfold bind, invoke. destruct (f arg) as [v|e]; [|reflexivity].
  destruct (k v) as [t r]. reflexivity.
Qed.

Lemma try_except_returns {A} (a : A) handler :
  try_except (ret a) handler = ret a.
Proof. reflexivity. Qed.

(** ** Strings *)

Lemma prefix_app (p s : string) :
  String.prefix p s = true <-> exists post, s = p ++ post.
Proof.
  revert s. induction p as [|c p IH]; intros s.
  - split; [intros _; exists s; reflexivity | intros _; by destruct s].
  - destruct s as [|c' s]; simpl.
    + split; [discriminate | intros [post H]; discriminate].
    + destruct (Ascii.ascii_dec c c') as [->|Hne].
      * rewrite IH. split; intros [post H]; exists post.
        -- by rewrite H.
        -- by injection H.
      * split; [discriminate | intros [post H]; injection H; congruence].
Qed.

Lemma contains_substring (needle hay : string) :
  contains needle hay = true <-> substring needle hay.
Proof.
  unfold substring. induction hay as [|c hay IH].
  - cbn [contains]. rewrite orb_false_r, prefix_app. split.
    + intros [post H]. exists "", post. exact H.
    + intros (pre & post & H). destruct pre; [by exists post|discriminate].
  - cbn [contains]. rewrite orb_true_iff, prefix_app, IH. split.
    + intros [[post H] | (pre & post & H)].
      * exists "", post. exact H.
      * exists (String c pre), post. simpl. by rewrite H.
    + intros (pre & post & H). destruct pre as [|c' pre].
      * left. by exists post.
      * right. exists pre, post. simpl in H. by injection H.
Qed.

Lemma is_comparison_keyword (s : string) :
  is_comparison s = true <->
  exists keyword, keyword ∈ comparison_keywords /\ substring keyword s.
Proof.
  unfold is_comparison. rewrite existsb_exists. split.
  - intros (kw & Hin & Hc). exists kw.
    by rewrite list_elem_of_In, <- contains_substring.
  - intros (kw & Hin & Hc). exists kw.
    by rewrite <- list_elem_of_In, contains_substring.
Qed.

(** ** The state update *)

Lemma lookup_apply_update (state update : dict) (k : string) :
  apply_update state update !! k =
  if bool_decide (k ∈ RecommendationState)
  then match update !! k with Some v => Some v | None => state !! k end
  else state !! k.
Proof.
  unfold apply_update. rewrite lookup_union, map_lookup_filter.
  case_bool_decide as Hk.
  - destruct (update !! k) as [v|] eqn:Hu; simpl.
    + rewrite option_guard_True by done. simpl. by rewrite union_Some_l.
    + by rewrite (left_id None _).
  - destruct (update !! k) as [v|] eqn:Hu; simpl.
    + rewrite option_guard_False by done. simpl. by rewrite (left_id None _).
    + by rewrite (left_id None _).
Qed.

Lemma apply_update_pipeline_state (state update : dict) :
  pipeline_state state -> pipeline_state (apply_update state update).
Proof.
  intros Hst k. rewrite lookup_apply_update.
  case_bool_decide as Hk; [done|]. apply Hst.
Qed.

Lemma pipeline_state_should_fallback (st : dict) :
  pipeline_state st -> st !! "should_fallback" = None.
Proof.
  intros Hst. destruct (st !! "should_fallback") as [v|] eqn:Hv; [|done].
  assert (Hin : "should_fallback" ∈ RecommendationState) by (apply Hst; eauto).
  apply list_elem_of_In in Hin. simpl in Hin.
  repeat destruct Hin as [Hin|Hin]; try discriminate. destruct Hin.
Qed.

(** ** The nodes, one by one *)

Section Nodes.

Variable lower : string -> string.
Variable svc : services.

Lemma detect_comparison_node_eq (st : dict) (q : string) :
  st !! "user_query" = Some (VStr q) ->
  detect_comparison_node lower st =
  ret (dict_lit
    [ ("is_comparison_query", VBool (is_comparison (lower q)));
      ("early_response",
       if is_comparison (lower q) then VStr COMPARISON_RESPONSE else VNone) ]).
Proof.
  intros Hq. unfold detect_comparison_node, dict_item.
  rewrite Hq, bind_returns. cbn [str_lower]. by rewrite bind_returns.
Qed.

Lemma check_prompt_node_eq (st : dict) (q : value) :
  st !! "user_query" = Some q ->
  truthy (dict_get st "is_comparison_query" (VBool false)) = false ->
  check_prompt_node svc st =
  ([Call Classification q],
   match classification_verdict (check_and_classify_query svc q) with
   | Accepts =>
       Returns (dict_lit
         [ ("is_college_related", VBool true);
           ("safety_check_passed", VBool true) ])
   | Rejects safety response =>
       Returns (dict_lit
         [ ("is_college_related", VBool false);
           ("safety_check_passed", safety);
           ("early_response", response) ])
   | Fails e => Raises e
   end).
Proof.
  intros Hq Hcmp. unfold check_prompt_node, dict_item.
  rewrite Hq, bind_returns, Hcmp, bind_invoke.
  unfold classification_verdict.
  destruct (check_and_classify_query svc q) as [v|e]; [|reflexivity].
  destruct v as [| | | | |d]; try reflexivity.
  cbn [subscript]. unfold dict_item.
  destruct (d !! "is_college_related") as [related|]; [|reflexivity].
  rewrite bind_returns.
  destruct (d !! "safety_check_passed") as [safety|]; [|reflexivity].
  rewrite bind_returns.
  destruct (d !! "context") as [context|]; [|reflexivity].
  rewrite bind_returns.
  destruct (is_str context "college"); cbn [negb]; [reflexivity|].
  rewrite bind_returns. cbn [get_method]. by rewrite bind_returns.
Qed.

Lemma len_check_sized (v : value) :
  len_check v = if sized v then Returns tt else Raises TypeError.
Proof. by destruct v. Qed.

Lemma query_combined_agent_node_eq (st : dict) (q : value) :
  st !! "user_query" = Some q ->
  query_combined_agent_node svc st =
  ([Call PrimaryRetrieval q],
   Returns (dict_update st (primary_update (validate_and_compare svc q)))).
Proof.
  intros Hq. unfold query_combined_agent_node, dict_item, primary_update.
  rewrite Hq, bind_returns, bind_invoke. unfold primary_success.
  destruct (validate_and_compare svc q) as [v|e]; [|reflexivity].
  destruct v as [| | | | |d]; try reflexivity.
  cbn [get_method subscript]. unfold dict_item.
  rewrite bind_returns, len_check_sized.
  destruct (d !! "combined_agent_results") as [c|] eqn:Hc;
    unfold dict_get at 1; rewrite Hc;
    cbn [default from_option id sized]; cbv beta iota.
  - destruct (sized c); [|reflexivity].
    rewrite !bind_returns, len_check_sized.
    destruct (sized (dict_get d "snowflake_results" (VList [])));
      [|reflexivity].
    rewrite !bind_returns, len_check_sized.
    destruct (sized (dict_get d "rag_results" (VList []))); [|reflexivity].
    rewrite !bind_returns. reflexivity.
  - rewrite !bind_returns, len_check_sized.
    destruct (sized (dict_get d "snowflake_results" (VList [])));
      [|reflexivity].
    rewrite !bind_returns, len_check_sized.
    destruct (sized (dict_get d "rag_results" (VList []))); [|reflexivity].
    rewrite !bind_returns. reflexivity.
Qed.

Lemma check_results_node_eq (st : dict) :
  let c := dict_get st "combined_agent_results" VNone in
  c = VNone \/ sized c = true ->
  check_results_node st =
  ret (dict_lit
    [ ("should_fallback",
       VBool (fallback_condition
                (dict_get st "snowflake_results" VNone)
                (dict_get st "rag_results" VNone) c)) ]).
Proof.
  intros c Hc. unfold check_results_node, fallback_condition. fold c.
  destruct (truthy c) eqn:Ht.
  - assert (Hs : sized c = true) by (destruct Hc as [Hc|]; [by rewrite Hc in Ht|done]).
    assert (Hi : dict_item st "combined_agent_results" = Returns c).
    { unfold dict_item, c, dict_get in *.
      destruct (st !! "combined_agent_results"); [done|discriminate]. }
    rewrite Hi, bind_returns.
    destruct c; try discriminate; cbn [py_in]; rewrite bind_returns;
      rewrite andb_true_l;
      match goal with |- context [(?a || ?b)%bool] => by destruct (a || b)%bool end.
  - rewrite bind_ret, andb_false_l.
    match goal with |- context [(?a || false)%bool] => by destruct (a || false)%bool end.
Qed.

Lemma query_web_node_eq (st : dict) (q : value) :
  st !! "user_query" = Some q ->
  query_web_node svc st =
  ([Call FallbackRetrieval q], Returns (web_update (recommend svc q))).
Proof.
  intros Hq. unfold query_web_node, dict_item, web_update, web_success.
  rewrite Hq, bind_returns, bind_invoke.
  destruct (recommend svc q) as [v|e]; [|reflexivity].
  destruct v as [| | | | |d]; try reflexivity.
  cbn [subscript]. unfold dict_item.
  destruct (d !! "response") as [response|]; [|reflexivity].
  rewrite bind_returns.
  destruct (d !! "results_analyzed") as [analyzed|]; [|reflexivity].
  by rewrite bind_returns.
Qed.

End Nodes.

Lemma check_results_node_fields (st : dict) (s r c : value) :
  st !! "snowflake_results" = Some s ->
  st !! "rag_results" = Some r ->
  st !! "combined_agent_results" = Some c ->
  c = VNone \/ sized c = true ->
  check_results_node st =
  ret (dict_lit [ ("should_fallback", VBool (fallback_condition s r c)) ]).
Proof.
  intros Hs Hr Hc Hsz. rewrite check_results_node_eq.
  - unfold dict_get. by rewrite Hs, Hr, Hc.
  - unfold dict_get. by rewrite Hc.
Qed.

Lemma compile_results_fields (st : dict)
      (q c s r w fallback message : value) :
  st !! "user_query" = Some q ->
  st !! "combined_agent_results" = Some c ->
  st !! "snowflake_results" = Some s ->
  st !! "rag_results" = Some r ->
  st !! "web_results" = Some w ->
  st !! "fallback_used" = Some fallback ->
  st !! "fallback_message" = Some message ->
  compile_results st =
  ret (dict_lit
    [ ("final_output",
       VDict (final_output_of q c s r w fallback message)) ]).
Proof.
  intros Hq Hc Hs Hr Hw Hf Hm. unfold compile_results, dict_item, dict_get.
  rewrite Hq, Hc, Hs, Hr, Hw, Hf, Hm, bind_returns. cbn [default from_option id].
  unfold final_output_of. destruct (truthy fallback); by_vm.
Qed.

Lemma primary_success_sized (o : outcome value) (c s r : value) :
  primary_success o = Some (c, s, r) ->
  sized c = true /\ sized s = true /\ sized r = true.
Proof.
  unfold primary_success. destruct o as [[| | | | |d]|e]; try discriminate.
  destruct (d !! "combined_agent_results") as [c'|]; [|discriminate].
  destruct (sized c') eqn:Hc; [|discriminate].
  destruct (sized (dict_get d "snowflake_results" (VList []))) eqn:Hs;
    [|discriminate].
  destruct (sized (dict_get d "rag_results" (VList []))) eqn:Hr;
    [|discriminate].
  cbn [andb]. intros [= <- <- <-]. done.
Qed.

(** ** Runs *)

Lemma dict_eq_list (m1 m2 : dict) :
  map_to_list m1 = map_to_list m2 -> m1 = m2.
Proof.
  intros H. rewrite <- (list_to_map_to_list m1), <- (list_to_map_to_list m2).
  by rewrite H.
Qed.

(** Replaces the state under [run_from] by its listing. *)
Ltac norm_state :=
  match goal with
  | |- context [run_from _ _ _ _ ?st] =>
      let l := eval vm_compute in (map_to_list st) in
      replace st with (dict_lit l) by (apply dict_eq_list; by_compute)
  end.

Section Runs.

Variable lower : string -> string.
Variable svc : services.

Lemma run_from_node (budget : nat) (n : node) (st : dict) t upd dest :
  node_function lower svc n st = (t, Returns upd) ->
  route n (branch_view (apply_update st upd) upd) = Returns dest ->
  run_from lower svc (S budget) n st =
  match dest with
  | END => (t, Returns (apply_update st upd))
  | Goto n' =>
      after_trace t (run_from lower svc budget n' (apply_update st upd))
  end.
Proof.
  intros Hn Hr. cbn [run_from]. rewrite Hn. unfold bind at 1.
  rewrite Hr, bind_returns.
  destruct dest as [n'|].
  - unfold after_trace. by destruct (run_from lower svc budget n' _).
  - unfold ret. by rewrite app_nil_r.
Qed.

Lemma run_from_raises (budget : nat) (n : node) (st : dict) t e :
  node_function lower svc n st = (t, Raises e) ->
  run_from lower svc (S budget) n st = (t, Raises e).
Proof. intros Hn. cbn [run_from]. by rewrite Hn. Qed.

Ltac node_step tac :=
  erewrite run_from_node; [ | cbn [node_function]; tac | by_compute ];
  cbv beta iota; try norm_state.

Lemma run_paths (q : string) : run lower svc q = path_result lower svc q.
Proof.
  unfold run, ainvoke, recursion_limit, path_result.
  norm_state.
  erewrite run_from_node
    with (dest := if is_comparison (lower q) then END else Goto gatekeeper);
    [ | cbn [node_function]; apply (detect_comparison_node_eq _ _ q);
        by_compute
      | destruct (is_comparison (lower q)); by_compute ].
  destruct (is_comparison (lower q)) eqn:Hb; [by_vm|].
  cbv beta iota. norm_state.
  destruct (classification_verdict (check_and_classify_query svc (VStr q)))
    as [|safety response|e] eqn:Hv.
  - node_step ltac:(rewrite (check_prompt_node_eq _ _ (VStr q)) by by_compute;
                    rewrite Hv; reflexivity).
    destruct (primary_success (validate_and_compare svc (VStr q)))
      as [[[c s] r]|] eqn:Hp.
    + destruct (primary_success_sized _ _ _ _ Hp) as (Hc & _ & _).
      node_step ltac:(rewrite (query_combined_agent_node_eq _ _ (VStr q))
                        by by_compute;
                      unfold primary_update; rewrite Hp; reflexivity).
      erewrite run_from_node
        with (dest := if fallback_condition s r c then Goto web
                      else Goto compile);
        [ | cbn [node_function];
            apply (check_results_node_fields _ s r c);
            [by_compute | by_compute | by_compute | by right]
          | destruct (fallback_condition s r c); by_compute ].
      destruct (fallback_condition s r c) eqn:Hfb; cbv beta iota; norm_state.
      * destruct (web_success (recommend svc (VStr q)))
          as [[response analyzed]|] eqn:Hw;
          node_step ltac:(rewrite (query_web_node_eq _ _ (VStr q))
                            by by_compute;
                          unfold web_update; rewrite Hw; reflexivity);
          node_step ltac:(eapply compile_results_fields; by_compute);
          by_vm.
      * node_step ltac:(eapply compile_results_fields; by_compute). by_vm.
    + node_step ltac:(rewrite (query_combined_agent_node_eq _ _ (VStr q))
                        by by_compute;
                      unfold primary_update; rewrite Hp; reflexivity).
      node_step ltac:(apply (check_results_node_fields _ (VList []) (VList []) VNone);
            [by_compute | by_compute | by_compute | by left]).
      replace (fallback_condition (VList []) (VList []) VNone) with true
        by by_compute.
      cbv beta iota.
      destruct (web_success (recommend svc (VStr q)))
        as [[response analyzed]|] eqn:Hw;
        node_step ltac:(rewrite (query_web_node_eq _ _ (VStr q))
                          by by_compute;
                        unfold web_update; rewrite Hw; reflexivity);
        node_step ltac:(eapply compile_results_fields; by_compute);
        by_vm.
  - node_step ltac:(rewrite (check_prompt_node_eq _ _ (VStr q)) by by_compute;
                    rewrite Hv; reflexivity).
    by_vm.
  - erewrite run_from_raises;
      [ | cbn [node_function];
          rewrite (check_prompt_node_eq _ _ (VStr q)) by by_compute;
          rewrite Hv; reflexivity ].
    reflexivity.
Qed.
End Runs.

Lemma apply_update_lookup_Some (st upd : dict) (k : string) (v : value) :
  bool_decide (k ∈ RecommendationState) = true ->
  upd !! k = Some v ->
  apply_update st upd !! k = Some v.
Proof. intros Hk Hu. by rewrite lookup_apply_update, Hk, Hu. Qed.

Lemma apply_update_lookup_None (st upd : dict) (k : string) :
  upd !! k = None -> apply_update st upd !! k = st !! k.
Proof.
  intros Hu. rewrite lookup_apply_update, Hu. by case_bool_decide.
Qed.

Lemma dict_update_lookup_Some (st upd : dict) (k : string) (v : value) :
  upd !! k = Some v -> dict_update st upd !! k = Some v.
Proof. intros Hu. unfold dict_update. by rewrite lookup_union, Hu, union_Some_l. Qed.

Lemma dict_update_lookup_None (st upd : dict) (k : string) :
  upd !! k = None -> dict_update st upd !! k = st !! k.
Proof.
  intros Hu. unfold dict_update. by rewrite lookup_union, Hu, (left_id None _).
Qed.

Lemma stage_update_lookup (st lit : dict) (k : string) (v : value) :
  bool_decide (k ∈ RecommendationState) = true ->
  lit !! k = Some v ->
  apply_update st (dict_update st lit) !! k = Some v.
Proof.
  intros Hk Hv. apply apply_update_lookup_Some; [done|].
  by apply dict_update_lookup_Some.
Qed.

(** ** The claims *)

(** C3.  A query whose lower-cased text contains one of the comparison
    keywords ends the run at once: the state carries the fixed comparison
    message as [early_response], [final_output] stays [None], and the trace
    is empty, so neither the classification, the primary retrieval nor the
    fallback retrieval is called. *)
Theorem comparison_query_exits_early
    (lower : string -> string) (svc : services) (q : string) :
  (exists keyword,
     keyword ∈ comparison_keywords /\ substring keyword (lower q)) ->
  exists st,
    run lower svc q = ([], Returns st) /\
    st !! "early_response" = Some (VStr COMPARISON_RESPONSE) /\
    st !! "final_output" = Some VNone.
Proof.
  intros Hkw. apply is_comparison_keyword in Hkw.
  rewrite run_paths. unfold path_result. rewrite Hkw.
  eexists. split; [reflexivity|]. split; by_compute.
Qed.

Lemma comparison_query_exits_early_witness :
  exists st,
    run ascii_lower
        (constant_services (Raises service_down) (Raises service_down)
                           (Raises service_down))
        "Stanford vs MIT" = ([], Returns st) /\
    st !! "early_response" = Some (VStr COMPARISON_RESPONSE) /\
    st !! "final_output" = Some VNone.
Proof.
  apply comparison_query_exits_early.
  apply is_comparison_keyword. vm_compute. reflexivity.
Defined.

(** C1 (the code departs from it).  [check_prompt_node] awaits the
    classification outside any [try]: when the service raises, the exception
    leaves [run] after the one call, and no state, hence no
    [early_response], is produced. *)
Theorem classification_failure_propagates
    (lower : string -> string) (svc : services) (q : string) (e : exn) :
  is_comparison (lower q) = false ->
  check_and_classify_query svc (VStr q) = Raises e ->
  run lower svc q = ([Call Classification (VStr q)], Raises e).
Proof.
  intros Hb He. rewrite run_paths. unfold path_result.
  by rewrite Hb, He.
Qed.

Lemma classification_failure_propagates_witness :
  run ascii_lower
      (constant_services (Raises service_down)
         (Returns (primary_answer (VStr "Stanford MBA")
                     (VList [sample_record]) (VList [])))
         (Returns web_answer))
      sample_query
  = ([Call Classification (VStr sample_query)], Raises service_down).
Proof.
  apply classification_failure_propagates; vm_compute; reflexivity.
Defined.

(** A run consults the services at the query only: two sets of services
    that answer the query alike give the same trace and the same outcome.
    The embedding makes [run] a function of the query and of the three
    answers, so this says where the services are consulted and nothing
    about repeated invocations of the Python program. *)
Theorem run_deterministic
    (lower : string -> string) (svc1 svc2 : services) (q : string) :
  check_and_classify_query svc1 (VStr q)
    = check_and_classify_query svc2 (VStr q) ->
  validate_and_compare svc1 (VStr q) = validate_and_compare svc2 (VStr q) ->
  recommend svc1 (VStr q) = recommend svc2 (VStr q) ->
  run lower svc1 q = run lower svc2 q.
Proof.
  intros Hc Hp Hw. rewrite !run_paths. unfold path_result.
  by rewrite Hc, Hp, Hw.
Qed.

Lemma run_deterministic_witness :
  run ascii_lower svc_ok sample_query
  = run ascii_lower svc_sample_only sample_query.
Proof.
  apply run_deterministic; vm_compute; reflexivity.
Defined.

(** C10.  Whenever [compile_results] returns, its [final_output] holds the
    keys [query], [combined_output], [snowflake], [rag], [web] and
    [fallback_used]; it holds [fallback_message] exactly when
    [fallback_used] is [True]; and when [fallback_used] is [False] there is
    no [fallback_message] and [web] is the empty list.  It returns as soon
    as the state has a [user_query]. *)
Theorem compile_results_keys (st : dict) (q : value) :
  st !! "user_query" = Some q ->
  exists d,
    compile_results st
      = ([], Returns (dict_lit [ ("final_output", VDict d) ])) /\
    Forall (fun k => is_Some (d !! k))
      [ "query"; "combined_output"; "snowflake"; "rag"; "web";
        "fallback_used" ] /\
    (is_Some (d !! "fallback_message")
       <-> d !! "fallback_used" = Some (VBool true)) /\
    (d !! "fallback_used" = Some (VBool true) \/
     d !! "fallback_used" = Some (VBool false) /\
     d !! "fallback_message" = None /\
     d !! "web" = Some (VList [])).
Proof.
  intros Hq. unfold compile_results, dict_item. rewrite Hq, bind_returns.
  generalize (dict_get st "combined_agent_results" VNone)
             (dict_get st "snowflake_results" (VList []))
             (dict_get st "rag_results" (VList []))
             (dict_get st "web_results" (VList []))
             (dict_get st "fallback_message" (VStr "")).
  intros c s r w m.
  destruct (truthy (dict_get st "fallback_used" (VBool false)));
    eexists; (split; [reflexivity|]).
  - split; [|split].
    + repeat (constructor; [eexists; by_compute|]). constructor.
    + split; intros _; [by_compute | eexists; by_compute].
    + left. by_compute.
  - assert (Hm : dict_update
              (dict_lit [ ("query", q); ("combined_output", c);
                          ("snowflake", s); ("rag", r) ])
              (dict_lit [ ("web", VList []);
                          ("fallback_used", VBool false) ])
              !! "fallback_message" = None) by by_compute.
    split; [|split].
    + repeat (constructor; [eexists; by_compute|]). constructor.
    + rewrite Hm. split; [intros [? [=]] | intros H; exfalso].
      revert H. vm_compute. discriminate.
    + right. split; [by_compute|]. split; [exact Hm | by_compute].
Qed.

Lemma compile_results_keys_witness :
  exists d,
    compile_results (initial_state sample_query)
      = ([], Returns (dict_lit [ ("final_output", VDict d) ])) /\
    Forall (fun k => is_Some (d !! k))
      [ "query"; "combined_output"; "snowflake"; "rag"; "web";
        "fallback_used" ] /\
    (is_Some (d !! "fallback_message")
       <-> d !! "fallback_used" = Some (VBool true)) /\
    (d !! "fallback_used" = Some (VBool true) \/
     d !! "fallback_used" = Some (VBool false) /\
     d !! "fallback_message" = None /\
     d !! "web" = Some (VList [])).
Proof.
  apply (compile_results_keys _ (VStr sample_query)). vm_compute. reflexivity.
Defined.

(** C5.  The fallback stage, run in a state that holds the query, calls the
    fallback service once and never raises.  When the service answers with a
    response and the number of results it analysed, [web_results] becomes
    the one record built from them, tagged with the source
    [web_search_fallback], [fallback_used] becomes [True] and
    [fallback_message] the fixed explanation.  When the service raises,
    [web_results] becomes the empty list and [fallback_used] becomes
    [False], and [fallback_message] is left as it was. *)
Theorem query_web_node_outcomes (svc : services) (st : dict) (q : value) :
  st !! "user_query" = Some q ->
  (forall d response analyzed,
     recommend svc q = Returns (VDict d) ->
     d !! "response" = Some response ->
     d !! "results_analyzed" = Some analyzed ->
     exists upd record meta,
       query_web_node svc st = ([Call FallbackRetrieval q], Returns upd) /\
       apply_update st upd !! "web_results" = Some (VList [VDict record]) /\
       record !! "text" = Some response /\
       record !! "metadata" = Some (VDict meta) /\
       meta !! "source" = Some (VStr "web_search_fallback") /\
       meta !! "results_analyzed" = Some analyzed /\
       apply_update st upd !! "fallback_used" = Some (VBool true) /\
       apply_update st upd !! "fallback_message"
         = Some (VStr WEB_FALLBACK_MESSAGE)) /\
  (forall e,
     recommend svc q = Raises e ->
     exists upd,
       query_web_node svc st = ([Call FallbackRetrieval q], Returns upd) /\
       apply_update st upd !! "web_results" = Some (VList []) /\
       apply_update st upd !! "fallback_used" = Some (VBool false) /\
       apply_update st upd !! "fallback_message" = st !! "fallback_message").
Proof.
  intros Hq. split.
  - intros d response analyzed Hr Hresp Han.
    rewrite (query_web_node_eq _ _ q Hq). unfold web_update, web_success.
    rewrite Hr, Hresp, Han.
    eexists _, _, _. split; [reflexivity|].
    split; [apply apply_update_lookup_Some; by_compute|].
    split; [by_compute|]. split; [by_compute|].
    split; [by_compute|]. split; [by_compute|].
    split; apply apply_update_lookup_Some; by_compute.
  - intros e Hr. rewrite (query_web_node_eq _ _ q Hq).
    unfold web_update, web_success. rewrite Hr.
    eexists. split; [reflexivity|].
    split; [apply apply_update_lookup_Some; by_compute|].
    split; [apply apply_update_lookup_Some; by_compute|].
    apply apply_update_lookup_None. by_compute.
Qed.

Lemma query_web_node_outcomes_witness :
  exists upd record meta,
    query_web_node svc_ok (initial_state sample_query)
      = ([Call FallbackRetrieval (VStr sample_query)], Returns upd) /\
    apply_update (initial_state sample_query) upd !! "web_results"
      = Some (VList [VDict record]) /\
    record !! "text" = Some (VStr "Stanford GSB offers a finance track.") /\
    record !! "metadata" = Some (VDict meta) /\
    meta !! "source" = Some (VStr "web_search_fallback") /\
    meta !! "results_analyzed" = Some (VInt 5) /\
    apply_update (initial_state sample_query) upd !! "fallback_used"
      = Some (VBool true) /\
    apply_update (initial_state sample_query) upd !! "fallback_message"
      = Some (VStr WEB_FALLBACK_MESSAGE).
Proof.
  destruct (query_web_node_outcomes svc_ok (initial_state sample_query)
              (VStr sample_query)) as [Hok _]; [vm_compute; reflexivity|].
  eapply Hok; [reflexivity | vm_compute; reflexivity | vm_compute; reflexivity].
Defined.

(** *** The adequacy check *)

Lemma state_of_pipeline_state
    (q cmp related safety c s r w final early fallback message : value) :
  pipeline_state
    (state_of q cmp related safety c s r w final early fallback message).
Proof.
  intros k [v Hk]. unfold state_of, dict_lit in Hk.
  cbn [fold_left fst snd] in Hk.
  repeat (rewrite lookup_insert_Some in Hk; destruct Hk as [[<- _]|[_ Hk]];
          [apply list_elem_of_In; simpl; tauto|]).
  by rewrite lookup_empty in Hk.
Qed.

Lemma sentinel_not_in_empty : contains NO_DATA_SENTINEL "" = false.
Proof. reflexivity. Qed.

Lemma fallback_condition_lists (ls lr : list value) (c : value) :
  c = VNone \/ (exists s, c = VStr s) ->
  fallback_condition (VList ls) (VList lr) c = true <->
  (ls = [] /\ lr = []) \/
  (exists s, c = VStr s /\ substring NO_DATA_SENTINEL s).
Proof.
  intros Hc. unfold fallback_condition. rewrite orb_true_iff, andb_true_iff.
  assert (Hl : forall l : list value,
            negb (truthy (VList l)) = true <-> l = [])
    by (intros [|x l]; simpl; split; (done || discriminate)).
  rewrite !Hl. apply or_iff_compat_l.
  destruct Hc as [->|[s ->]].
  - simpl. split; [discriminate | intros (s & [=] & _)].
  - cbn [py_in]. rewrite andb_true_iff, contains_substring. split.
    + intros [_ H]. by exists s.
    + intros (s' & [= <-] & H). split; [|done].
      destruct s; [|done].
      apply contains_substring in H. by rewrite sentinel_not_in_empty in H.
Qed.

Lemma route_check_results (st upd : dict) (b : bool) :
  pipeline_state st ->
  upd = dict_lit [ ("should_fallback", VBool b) ] ->
  route check_results (branch_view (apply_update st upd) upd)
  = Returns (if b then Goto web else Goto compile).
Proof.
  intros Hst ->. unfold route, after_check_results, dict_get, branch_view.
  rewrite lookup_union, lookup_apply_update.
  replace (bool_decide ("should_fallback" ∈ RecommendationState))
    with false by by_compute.
  rewrite (pipeline_state_should_fallback st Hst), (left_id None _).
  replace (dict_lit [ ("should_fallback", VBool b) ] !! "should_fallback")
    with (Some (VBool b)) by by_compute.
  destruct b; by_compute.
Qed.

Lemma compile_makes_no_call lower svc (budget : nat) (st : dict) :
  (run_from lower svc budget compile st).1 = [].
Proof.
  destruct budget as [|budget]; [reflexivity|].
  cbn [run_from node_function]. unfold compile_results, dict_item.
  destruct (st !! "user_query") as [q|]; [|reflexivity].
  rewrite bind_returns, bind_ret. cbn [route]. by rewrite bind_returns.
Qed.

(** C2.  In a pipeline state whose two result sets are lists and whose
    [combined_agent_results] is [None] or a string, the adequacy check
    answers [should_fallback = b] where [b] is true exactly when both lists
    are empty or the string contains the sentinel
    [NO_DATA_SENTINEL]; and when one list is not empty and the sentinel is
    absent, [b] is false and the run that continues from the check makes no
    call to the fallback retrieval, whatever the budget. *)
Theorem check_results_fallback_iff
    (lower : string -> string) (svc : services)
    (st : dict) (ls lr : list value) (c : value) :
  pipeline_state st ->
  st !! "snowflake_results" = Some (VList ls) ->
  st !! "rag_results" = Some (VList lr) ->
  st !! "combined_agent_results" = Some c ->
  c = VNone \/ (exists s, c = VStr s) ->
  exists b : bool,
    check_results_node st
      = ([], Returns (dict_lit [ ("should_fallback", VBool b) ])) /\
    (b = true <->
     (ls = [] /\ lr = []) \/
     (exists s, c = VStr s /\ substring NO_DATA_SENTINEL s)) /\
    (ls <> [] \/ lr <> [] ->
     ~ (exists s, c = VStr s /\ substring NO_DATA_SENTINEL s) ->
     b = false /\
     forall budget,
       calls_to FallbackRetrieval
         (run_from lower svc budget check_results st).1 = 0).
Proof.
  intros Hst Hs Hr Hc Hty.
  exists (fallback_condition (VList ls) (VList lr) c).
  assert (Hnode : check_results_node st
            = ret (dict_lit [ ("should_fallback",
                 VBool (fallback_condition (VList ls) (VList lr) c)) ])).
  { apply check_results_node_fields; try done.
    destruct Hty as [->|[s ->]]; [by left | by right]. }
  split; [exact Hnode|]. split; [by apply fallback_condition_lists|].
  intros Hne Hno.
  assert (Hb : fallback_condition (VList ls) (VList lr) c = false).
  { destruct (fallback_condition (VList ls) (VList lr) c) eqn:Hb; [|done].
    apply fallback_condition_lists in Hb as [[-> ->]|H]; [|done..].
    by destruct Hne. }
  split; [exact Hb|]. intros [|budget]; [reflexivity|].
  erewrite run_from_node with (dest := Goto compile);
    [ | cbn [node_function]; exact Hnode
      | rewrite (route_check_results st _ _ Hst eq_refl); by rewrite Hb ].
  unfold after_trace. cbn [fst]. by rewrite compile_makes_no_call.
Qed.

Lemma check_results_fallback_iff_witness :
  exists b : bool,
    check_results_node
      (state_of (VStr sample_query) (VBool false) (VBool true) (VBool true)
         (VStr "Stanford MBA") (VList [sample_record]) (VList [])
         (VList []) VNone VNone (VBool false) VNone)
      = ([], Returns (dict_lit [ ("should_fallback", VBool b) ])) /\
    (b = true <->
     ([sample_record] = [] /\ @nil value = []) \/
     (exists s, VStr "Stanford MBA" = VStr s /\
                substring NO_DATA_SENTINEL s)) /\
    ([sample_record] <> [] \/ @nil value <> [] ->
     ~ (exists s, VStr "Stanford MBA" = VStr s /\
                  substring NO_DATA_SENTINEL s) ->
     b = false /\
     forall budget,
       calls_to FallbackRetrieval
         (run_from ascii_lower svc_ok budget check_results
            (state_of (VStr sample_query) (VBool false) (VBool true)
               (VBool true) (VStr "Stanford MBA") (VList [sample_record])
               (VList []) (VList []) VNone VNone (VBool false) VNone)).1
       = 0).
Proof.
  apply check_results_fallback_iff.
  - apply state_of_pipeline_state.
  - vm_compute; reflexivity.
  - vm_compute; reflexivity.
  - vm_compute; reflexivity.
  - right. by exists "Stanford MBA".
Defined.

(** *** The primary retrieval stage *)

(** The primary retrieval stage, run in a pipeline state that holds the
    query, calls the service once and never raises.  When the service
    raises, the stage sets [combined_agent_results] to [None], both result
    sets to the empty list, [fallback_used] to [True] and
    [fallback_message] to [PRIMARY_ERROR_MESSAGE]; the graph goes on to the
    adequacy check, which answers [should_fallback = True] and routes to the
    fallback stage.  When the service answers with a summary that is a text
    and two result lists (a missing list counts as empty), the stage stores
    the three and sets [fallback_used] to [False].  An answer whose summary
    is [None] is not stored, as shown further on. *)
Theorem query_combined_agent_node_outcomes
    (svc : services) (st : dict) (q : value) :
  pipeline_state st ->
  st !! "user_query" = Some q ->
  (forall e,
     validate_and_compare svc q = Raises e ->
     exists upd,
       query_combined_agent_node svc st
         = ([Call PrimaryRetrieval q], Returns upd) /\
       let st' := apply_update st upd in
       let fallback := dict_lit [ ("should_fallback", VBool true) ] in
       st' !! "combined_agent_results" = Some VNone /\
       st' !! "snowflake_results" = Some (VList []) /\
       st' !! "rag_results" = Some (VList []) /\
       st' !! "fallback_used" = Some (VBool true) /\
       st' !! "fallback_message" = Some (VStr PRIMARY_ERROR_MESSAGE) /\
       route combined_agent (branch_view st' upd)
         = Returns (Goto check_results) /\
       check_results_node st' = ([], Returns fallback) /\
       route check_results (branch_view (apply_update st' fallback) fallback)
         = Returns (Goto web)) /\
  (forall d summary ls lr,
     validate_and_compare svc q = Returns (VDict d) ->
     d !! "combined_agent_results" = Some (VStr summary) ->
     dict_get d "snowflake_results" (VList []) = VList ls ->
     dict_get d "rag_results" (VList []) = VList lr ->
     exists upd,
       query_combined_agent_node svc st
         = ([Call PrimaryRetrieval q], Returns upd) /\
       let st' := apply_update st upd in
       st' !! "combined_agent_results" = Some (VStr summary) /\
       st' !! "snowflake_results" = Some (VList ls) /\
       st' !! "rag_results" = Some (VList lr) /\
       st' !! "fallback_used" = Some (VBool false)).
Proof.
  intros Hst Hq. split.
  - intros e He. rewrite (query_combined_agent_node_eq _ _ q Hq).
    unfold primary_update, primary_success. rewrite He.
    eexists. split; [reflexivity|]. cbv zeta.
    pose proof (stage_update_lookup st (dict_lit
        [ ("combined_agent_results", VNone);
          ("snowflake_results", VList []);
          ("rag_results", VList []);
          ("fallback_used", VBool true);
          ("fallback_message", VStr PRIMARY_ERROR_MESSAGE) ])) as Hl.
    assert (Hc := Hl "combined_agent_results" VNone eq_refl eq_refl).
    assert (Hs := Hl "snowflake_results" (VList []) eq_refl eq_refl).
    assert (Hr := Hl "rag_results" (VList []) eq_refl eq_refl).
    repeat (split; [apply Hl; by_compute|]).
    split; [reflexivity|].
    split.
    + rewrite (check_results_node_fields _ (VList []) (VList []) VNone);
        [reflexivity | done | done | done | by left].
    + apply (route_check_results _ _ true); [|reflexivity].
      by apply apply_update_pipeline_state.
  - intros d summary ls lr Hd Hsum Hls Hlr.
    rewrite (query_combined_agent_node_eq _ _ q Hq).
    unfold primary_update, primary_success. rewrite Hd, Hsum, Hls, Hlr.
    cbn [sized andb].
    eexists. split; [reflexivity|]. cbv zeta.
    split; [apply stage_update_lookup; by_compute|].
    split; [apply stage_update_lookup; by_compute|].
    split; apply stage_update_lookup; by_compute.
Qed.

Lemma query_combined_agent_node_outcomes_witness :
  exists upd,
    query_combined_agent_node svc_ok
      (state_of (VStr sample_query) (VBool false) (VBool true) (VBool true)
         VNone (VList []) (VList []) (VList []) VNone VNone (VBool false)
         VNone)
      = ([Call PrimaryRetrieval (VStr sample_query)], Returns upd) /\
    let st' :=
      apply_update
        (state_of (VStr sample_query) (VBool false) (VBool true)
           (VBool true) VNone (VList []) (VList []) (VList []) VNone VNone
           (VBool false) VNone) upd in
    st' !! "combined_agent_results" = Some (VStr "Stanford MBA") /\
    st' !! "snowflake_results" = Some (VList [sample_record]) /\
    st' !! "rag_results" = Some (VList []) /\
    st' !! "fallback_used" = Some (VBool false).
Proof.
  destruct (query_combined_agent_node_outcomes svc_ok
              (state_of (VStr sample_query) (VBool false) (VBool true)
                 (VBool true) VNone (VList []) (VList []) (VList []) VNone
                 VNone (VBool false) VNone)
              (VStr sample_query)) as [_ Hok].
  - apply state_of_pipeline_state.
  - vm_compute; reflexivity.
  - eapply Hok; [reflexivity | vm_compute; reflexivity
                 | vm_compute; reflexivity | vm_compute; reflexivity].
Defined.

(** A summary that is [None] has no length: the print of its length raises
    inside the [try], and the stage handles the answer as a failure. *)
Lemma null_summary_handled_as_failure
    (svc : services) (st : dict) (q : value) (d : dict) :
  st !! "user_query" = Some q ->
  validate_and_compare svc q = Returns (VDict d) ->
  d !! "combined_agent_results" = Some VNone ->
  query_combined_agent_node svc st
  = ([Call PrimaryRetrieval q],
     Returns (dict_update st (primary_update (Raises TypeError)))).
Proof.
  intros Hq Hd Hsum. rewrite (query_combined_agent_node_eq _ _ q Hq).
  unfold primary_update, primary_success. by rewrite Hd, Hsum.
Qed.

(** *** Runs whose primary retrieval fails *)

Lemma in_domain_accepts (o : outcome value) :
  in_domain o -> classification_verdict o = Accepts.
Proof.
  intros (d & related & safety & -> & Hr & Hs & Hc).
  unfold classification_verdict. by rewrite Hr, Hs, Hc.
Qed.

(** C6 as the specification words it fails: the primary retrieval raises
    for an in-domain query, the fallback answers, and [final_output] carries
    the message of the fallback stage, not the error message of the primary
    stage. *)
Lemma primary_error_message_overwritten :
  in_domain (check_and_classify_query
               (svc_primary_down (Returns web_answer)) (VStr sample_query)) /\
  validate_and_compare (svc_primary_down (Returns web_answer))
    (VStr sample_query) = Raises service_down /\
  ~ reports_primary_failure
      (run ascii_lower (svc_primary_down (Returns web_answer)) sample_query).
Proof.
  split; [|split; [reflexivity|]].
  - eexists _, _, _. split; [reflexivity|]. repeat split; by_compute.
  - intros (_ & Hmsg & _). revert Hmsg. rewrite run_paths.
    vm_compute. discriminate.
Qed.

(** C6, amended.  For a query that is not a comparison and that the
    classification reports in-domain, a primary retrieval that raises leads
    to exactly one call of the fallback retrieval, after one classification
    and one primary call, and the run returns a [final_output] whose
    fallback fields are those of the fallback stage: [fallback_used = True]
    with the fixed explanation and the web record when the fallback
    answers, [fallback_used = False] with no [fallback_message] and an empty
    [web] when it does not. *)
Theorem primary_failure_runs_fallback
    (lower : string -> string) (svc : services) (q : string) (e : exn) :
  is_comparison (lower q) = false ->
  in_domain (check_and_classify_query svc (VStr q)) ->
  validate_and_compare svc (VStr q) = Raises e ->
  let r := run lower svc q in
  r.1 = [ Call Classification (VStr q); Call PrimaryRetrieval (VStr q);
          Call FallbackRetrieval (VStr q) ] /\
  calls_to FallbackRetrieval r.1 = 1 /\
  (exists st, r.2 = Returns st) /\
  match web_success (recommend svc (VStr q)) with
  | Some (response, analyzed) =>
      final_field r "fallback_used" = Some (VBool true) /\
      final_field r "fallback_message" = Some (VStr WEB_FALLBACK_MESSAGE) /\
      final_field r "web" = Some (VList [ web_record response analyzed ])
  | None =>
      final_field r "fallback_used" = Some (VBool false) /\
      final_field r "fallback_message" = None /\
      final_field r "web" = Some (VList [])
  end.
Proof.
  intros Hb Hdom He. apply in_domain_accepts in Hdom. cbv zeta.
  rewrite run_paths. unfold path_result, primary_success.
  rewrite Hb, Hdom, He.
  replace (fallback_condition (VList []) (VList []) VNone) with true
    by by_compute.
  cbv beta iota.
  destruct (web_success (recommend svc (VStr q))) as [[response analyzed]|];
    (split; [reflexivity|]); (split; [reflexivity|]);
    (split; [eexists; reflexivity|]); repeat split; by_compute.
Qed.

Lemma primary_failure_runs_fallback_witness :
  let r := run ascii_lower (svc_primary_down (Returns web_answer))
             sample_query in
  r.1 = [ Call Classification (VStr sample_query);
          Call PrimaryRetrieval (VStr sample_query);
          Call FallbackRetrieval (VStr sample_query) ] /\
  calls_to FallbackRetrieval r.1 = 1 /\
  (exists st, r.2 = Returns st) /\
  final_field r "fallback_used" = Some (VBool true) /\
  final_field r "fallback_message" = Some (VStr WEB_FALLBACK_MESSAGE) /\
  final_field r "web"
    = Some (VList [ web_record (VStr "Stanford GSB offers a finance track.")
                      (VInt 5) ]).
Proof.
  apply (primary_failure_runs_fallback ascii_lower
           (svc_primary_down (Returns web_answer)) sample_query service_down).
  - vm_compute; reflexivity.
  - eexists _, _, _. split; [reflexivity|].
    repeat split; vm_compute; reflexivity.
  - reflexivity.
Defined.

(** C4 (the code departs from it).  An answer of the primary retrieval
    whose summary is [None] is a success of the service, yet the stage does
    not store it: the length of the summary is printed inside the [try],
    [len(None)] raises, and the [except] branch runs.  The stage sets
    [combined_agent_results] to [None], both result sets to the empty list,
    [fallback_used] to [True] and [fallback_message] to the error message,
    whatever result sets the service returned; the run then calls the
    fallback retrieval, and [final_output] holds none of the returned
    records. *)
Theorem null_summary_discards_results
    (lower : string -> string) (svc : services) (q : string) (d : dict) :
  is_comparison (lower q) = false ->
  in_domain (check_and_classify_query svc (VStr q)) ->
  validate_and_compare svc (VStr q) = Returns (VDict d) ->
  d !! "combined_agent_results" = Some VNone ->
  (forall st,
     st !! "user_query" = Some (VStr q) ->
     query_combined_agent_node svc st
     = ([Call PrimaryRetrieval (VStr q)],
        Returns (dict_update st (dict_lit
          [ ("combined_agent_results", VNone);
            ("snowflake_results", VList []);
            ("rag_results", VList []);
            ("fallback_used", VBool true);
            ("fallback_message", VStr PRIMARY_ERROR_MESSAGE) ])))) /\
  let r := run lower svc q in
  r.1 = [ Call Classification (VStr q); Call PrimaryRetrieval (VStr q);
          Call FallbackRetrieval (VStr q) ] /\
  final_field r "combined_output" = Some VNone /\
  final_field r "snowflake" = Some (VList []) /\
  final_field r "rag" = Some (VList []).
Proof.
  intros Hb Hdom Hd Hsum.
  assert (Hp : primary_success (validate_and_compare svc (VStr q)) = None).
  { unfold primary_success. by rewrite Hd, Hsum. }
  split.
  - intros st Hq. rewrite (query_combined_agent_node_eq _ _ _ Hq).
    unfold primary_update. by rewrite Hp.
  - apply in_domain_accepts in Hdom. cbv zeta.
    rewrite run_paths. unfold path_result. rewrite Hb, Hdom, Hp.
    replace (fallback_condition (VList []) (VList []) VNone) with true
      by by_compute.
    cbv beta iota.
    destruct (web_success (recommend svc (VStr q))) as [[response analyzed]|];
      repeat split; by_compute.
Qed.

Lemma null_summary_discards_results_witness :
  let svc :=
    constant_services
      (Returns accept_classification)
      (Returns (primary_answer VNone (VList [sample_record]) (VList [])))
      (Returns web_answer) in
  subscript (primary_answer VNone (VList [sample_record]) (VList []))
    "snowflake_results" = Returns (VList [sample_record]) /\
  (forall st,
     st !! "user_query" = Some (VStr sample_query) ->
     query_combined_agent_node svc st
     = ([Call PrimaryRetrieval (VStr sample_query)],
        Returns (dict_update st (dict_lit
          [ ("combined_agent_results", VNone);
            ("snowflake_results", VList []);
            ("rag_results", VList []);
            ("fallback_used", VBool true);
            ("fallback_message", VStr PRIMARY_ERROR_MESSAGE) ])))) /\
  let r := run ascii_lower svc sample_query in
  r.1 = [ Call Classification (VStr sample_query);
          Call PrimaryRetrieval (VStr sample_query);
          Call FallbackRetrieval (VStr sample_query) ] /\
  final_field r "combined_output" = Some VNone /\
  final_field r "snowflake" = Some (VList []) /\
  final_field r "rag" = Some (VList []).
Proof.
  cbv zeta. split; [vm_compute; reflexivity|].
  apply (null_summary_discards_results ascii_lower
           (constant_services
              (Returns accept_classification)
              (Returns (primary_answer VNone (VList [sample_record])
                          (VList [])))
              (Returns web_answer))
           sample_query
           (dict_lit [ ("combined_agent_results", VNone);
                       ("snowflake_results", VList [sample_record]);
                       ("rag_results", VList []) ])).
  - vm_compute; reflexivity.
  - eexists _, _, _. split; [reflexivity|].
    repeat split; vm_compute; reflexivity.
  - reflexivity.
  - vm_compute; reflexivity.
Defined.

(** *** [fallback_used] at the end of a run *)

(** C8 as the specification words it fails: when the primary retrieval and
    the fallback retrieval both raise, the fallback path has run and the
    primary stage has failed, yet the run ends with [fallback_used = False].
    *)
Lemma fallback_used_false_after_two_failures :
  exists t st,
    run ascii_lower (svc_primary_down (Raises service_down)) sample_query
      = (t, Returns st) /\
    ~ (st !! "fallback_used" = Some (VBool true) <->
       0 < calls_to FallbackRetrieval t \/
       (0 < calls_to PrimaryRetrieval t /\
        validate_and_compare (svc_primary_down (Raises service_down))
          (VStr sample_query) = Raises service_down)).
Proof.
  exists [ Call Classification (VStr sample_query);
           Call PrimaryRetrieval (VStr sample_query);
           Call FallbackRetrieval (VStr sample_query) ].
  exists (state_of (VStr sample_query) (VBool false) (VBool true)
            (VBool true) VNone (VList []) (VList []) (VList [])
            (VDict (final_output_of (VStr sample_query) VNone
                      (VList []) (VList []) (VList []) (VBool false)
                      (VStr PRIMARY_ERROR_MESSAGE)))
            VNone (VBool false) (VStr PRIMARY_ERROR_MESSAGE)).
  split; [rewrite run_paths; by_vm|].
  intros [_ H].
  assert (Hf : state_of (VStr sample_query) (VBool false) (VBool true)
                 (VBool true) VNone (VList []) (VList []) (VList [])
                 (VDict (final_output_of (VStr sample_query) VNone
                           (VList []) (VList []) (VList []) (VBool false)
                           (VStr PRIMARY_ERROR_MESSAGE)))
                 VNone (VBool false) (VStr PRIMARY_ERROR_MESSAGE)
               !! "fallback_used" = Some (VBool false)) by by_compute.
  rewrite H in Hf; [discriminate|]. left. vm_compute. lia.
Qed.

(** C8, amended.  [fallback_used] is [False] in the initial state, and a run
    that returns ends with [fallback_used = True] exactly when the fallback
    retrieval was called and answered. *)
Theorem fallback_used_iff_fallback_answers
    (lower : string -> string) (svc : services) (q : string)
    (t : list call) (st : dict) :
  run lower svc q = (t, Returns st) ->
  initial_state q !! "fallback_used" = Some (VBool false) /\
  (st !! "fallback_used" = Some (VBool true) <->
   0 < calls_to FallbackRetrieval t /\
   is_Some (web_success (recommend svc (VStr q)))).
Proof.
  intros Hrun. split; [by_compute|].
  rewrite run_paths in Hrun. unfold path_result in Hrun.
  assert (Hno : forall P : Prop, 0 < 0 /\ P -> False) by (intros P [H _]; lia).
  destruct (is_comparison (lower q)).
  { injection Hrun as <- <-. split; [intros H; vm_compute in H; discriminate|].
    intros H. destruct (Hno _ H). }
  destruct (classification_verdict (check_and_classify_query svc (VStr q)))
    as [|safety response|e]; [| |discriminate].
  2:{ injection Hrun as <- <-.
      split; [intros H; vm_compute in H; discriminate|].
      intros H. destruct (Hno _ H). }
  destruct (primary_success (validate_and_compare svc (VStr q)))
    as [[[c s] r]|].
  - destruct (fallback_condition s r c).
    + destruct (web_success (recommend svc (VStr q)))
        as [[response analyzed]|]; injection Hrun as <- <-.
      * split; [intros _; split; [vm_compute; lia | eauto] | intros _; by_compute].
      * split; [intros H; vm_compute in H; discriminate|].
        intros [_ [x [=]]].
    + injection Hrun as <- <-.
      split; [intros H; vm_compute in H; discriminate|].
      intros H. destruct (Hno _ H).
  - replace (fallback_condition (VList []) (VList []) VNone) with true
      in Hrun by by_compute.
    destruct (web_success (recommend svc (VStr q)))
      as [[response analyzed]|]; injection Hrun as <- <-.
    + split; [intros _; split; [vm_compute; lia | eauto] | intros _; by_compute].
    + split; [intros H; vm_compute in H; discriminate|].
      intros [_ [x [=]]].
Qed.

Lemma fallback_used_iff_fallback_answers_witness :
  exists t st,
    run ascii_lower (svc_primary_down (Returns web_answer)) sample_query
      = (t, Returns st) /\
    initial_state sample_query !! "fallback_used" = Some (VBool false) /\
    (st !! "fallback_used" = Some (VBool true) <->
     0 < calls_to FallbackRetrieval t /\
     is_Some (web_success
                (recommend (svc_primary_down (Returns web_answer))
                   (VStr sample_query)))).
Proof.
  eexists _, _.
  assert (Hrun : run ascii_lower (svc_primary_down (Returns web_answer))
                   sample_query
                 = path_result ascii_lower
                     (svc_primary_down (Returns web_answer)) sample_query)
    by apply run_paths.
  split; [exact Hrun|].
  apply (fallback_used_iff_fallback_answers ascii_lower
           (svc_primary_down (Returns web_answer)) sample_query).
  exact Hrun.
Defined.

(** *** The result of a run *)

(** C7 (the code departs from it).  When the classification raises, the run
    ends with the exception and returns no state at all; and when the
    classification rejects the query with a [response] that is present but
    [None], the run returns a state in which [early_response] and
    [final_output] are both [None]. *)
Theorem result_fields_both_unset :
  (forall st,
     (run ascii_lower
        (constant_services (Raises service_down) (Raises service_down)
           (Raises service_down)) sample_query).2 <> Returns st) /\
  (exists st,
     run ascii_lower
       (constant_services
          (Returns (reject_classification [ ("response", VNone) ]))
          (Raises service_down) (Raises service_down)) sample_query
     = ([Call Classification (VStr sample_query)], Returns st) /\
     st !! "early_response" = Some VNone /\
     st !! "final_output" = Some VNone /\
     ~ exactly_one_result st).
Proof.
  split.
  - intros st. rewrite run_paths. vm_compute. discriminate.
  - exists (state_of (VStr sample_query) (VBool false) (VBool false)
              (VBool true) VNone (VList []) (VList []) (VList []) VNone
              VNone (VBool false) VNone).
    split; [rewrite run_paths; by_vm|].
    split; [by_compute|]. split; [by_compute|].
    unfold exactly_one_result. vm_compute. intros H. by apply H.
Qed.

(** A run raises only when the gatekeeper does: the classification raised,
    or its answer lacks a field the gatekeeper reads. *)
Lemma run_raises_only_in_gatekeeper
    (lower : string -> string) (svc : services) (q : string)
    (t : list call) (e : exn) :
  run lower svc q = (t, Raises e) ->
  is_comparison (lower q) = false /\
  classification_verdict (check_and_classify_query svc (VStr q)) = Fails e /\
  t = [Call Classification (VStr q)].
Proof.
  rewrite run_paths. unfold path_result.
  destruct (is_comparison (lower q)); [discriminate|].
  destruct (classification_verdict (check_and_classify_query svc (VStr q)))
    as [|safety response|e'].
  - destruct (primary_success (validate_and_compare svc (VStr q)))
      as [[[c s] r]|].
    + destruct (fallback_condition s r c); [|discriminate].
      destruct (web_success (recommend svc (VStr q))) as [[? ?]|];
        discriminate.
    + destruct (fallback_condition (VList []) (VList []) VNone);
        [|discriminate].
      destruct (web_success (recommend svc (VStr q))) as [[? ?]|];
        discriminate.
  - discriminate.
  - by intros [= <- <-].
Qed.

(** Where C7 does hold: a run that returns sets exactly one of
    [early_response] and [final_output], unless the classification rejected
    the query with a response that is [None]. *)
Lemma exactly_one_result_when_response_set
    (lower : string -> string) (svc : services) (q : string)
    (t : list call) (st : dict) :
  run lower svc q = (t, Returns st) ->
  (forall safety,
     is_comparison (lower q) = false ->
     classification_verdict (check_and_classify_query svc (VStr q))
       <> Rejects safety VNone) ->
  exactly_one_result st.
Proof.
  rewrite run_paths. unfold path_result, exactly_one_result.
  destruct (is_comparison (lower q)).
  { intros [= <- <-] _. vm_compute. discriminate. }
  destruct (classification_verdict (check_and_classify_query svc (VStr q)))
    as [|safety response|e'].
  - intros Hrun _.
    destruct (primary_success (validate_and_compare svc (VStr q)))
      as [[[c s] r]|].
    + destruct (fallback_condition s r c).
      * destruct (web_success (recommend svc (VStr q))) as [[? ?]|];
          injection Hrun as <- <-; vm_compute; discriminate.
      * injection Hrun as <- <-. vm_compute. discriminate.
    + replace (fallback_condition (VList []) (VList []) VNone) with true
        in Hrun by by_compute.
      destruct (web_success (recommend svc (VStr q))) as [[? ?]|];
        injection Hrun as <- <-; vm_compute; discriminate.
  - intros [= <- <-] Hresp.
    assert (Hnn : response <> VNone)
      by (intros ->; by apply (Hresp safety)).
    replace (dict_get (state_of (VStr q) (VBool false) (VBool false) safety
                         VNone (VList []) (VList []) (VList []) VNone
                         response (VBool false) VNone) "early_response" VNone)
      with response by by_compute.
    replace (dict_get (state_of (VStr q) (VBool false) (VBool false) safety
                         VNone (VList []) (VList []) (VList []) VNone
                         response (VBool false) VNone) "final_output" VNone)
      with VNone by by_compute.
    destruct response; try discriminate. by destruct Hnn.
  - discriminate.
Qed.

(** * Further properties of the workflow and of its callers *)

Section Paths.

Variable lower : string -> string.
Variable svc : services.

Ltac graph_step tac :=
  erewrite run_from_node; [ | cbn [node_function]; tac | by_compute ];
  cbv beta iota; try norm_state.

(** Walks every path of the graph from a listed state at
    [detect_comparison]. *)
Ltac walk_graph q :=
  erewrite run_from_node
    with (dest := if is_comparison (lower q) then END else Goto gatekeeper);
    [ | cbn [node_function]; apply (detect_comparison_node_eq _ _ q);
        by_compute
      | destruct (is_comparison (lower q)); by_compute ];
  destruct (is_comparison (lower q)) eqn:Hb; [by_vm|];
  cbv beta iota; norm_state;
  destruct (classification_verdict (check_and_classify_query svc (VStr q)))
    as [|safety response|e] eqn:Hv;
  [ graph_step ltac:(rewrite (check_prompt_node_eq _ _ (VStr q))
                       by by_compute;
                     rewrite Hv; reflexivity);
    destruct (primary_success (validate_and_compare svc (VStr q)))
      as [[[c s] r]|] eqn:Hp;
    [ destruct (primary_success_sized _ _ _ _ Hp) as (Hc & _ & _);
      graph_step ltac:(rewrite (query_combined_agent_node_eq _ _ (VStr q))
                         by by_compute;
                       unfold primary_update; rewrite Hp; reflexivity);
      erewrite run_from_node
        with (dest := if fallback_condition s r c then Goto web
                      else Goto compile);
        [ | cbn [node_function];
            apply (check_results_node_fields _ s r c);
            [by_compute | by_compute | by_compute | by right]
          | destruct (fallback_condition s r c); by_compute ];
      destruct (fallback_condition s r c) eqn:Hfb; cbv beta iota; norm_state;
      [ destruct (web_success (recommend svc (VStr q)))
          as [[response analyzed]|] eqn:Hw;
          graph_step ltac:(rewrite (query_web_node_eq _ _ (VStr q))
                             by by_compute;
                           unfold web_update; rewrite Hw; reflexivity);
          graph_step ltac:(eapply compile_results_fields; by_compute);
          by_vm
      | graph_step ltac:(eapply compile_results_fields; by_compute); by_vm ]
    | graph_step ltac:(rewrite (query_combined_agent_node_eq _ _ (VStr q))
                         by by_compute;
                       unfold primary_update; rewrite Hp; reflexivity);
      graph_step ltac:(apply (check_results_node_fields _
                                (VList []) (VList []) VNone);
                       [by_compute | by_compute | by_compute | by left]);
      replace (fallback_condition (VList []) (VList []) VNone) with true
        by by_compute;
      cbv beta iota;
      destruct (web_success (recommend svc (VStr q)))
        as [[response analyzed]|] eqn:Hw;
        graph_step ltac:(rewrite (query_web_node_eq _ _ (VStr q))
                           by by_compute;
                         unfold web_update; rewrite Hw; reflexivity);
        graph_step ltac:(eapply compile_results_fields; by_compute);
        by_vm ]
  | graph_step ltac:(rewrite (check_prompt_node_eq _ _ (VStr q))
                       by by_compute;
                     rewrite Hv; reflexivity);
    by_vm
  | erewrite run_from_raises;
      [ | cbn [node_function];
          rewrite (check_prompt_node_eq _ _ (VStr q)) by by_compute;
          rewrite Hv; reflexivity ];
    reflexivity ].


Lemma main_paths (q : string) :
  ainvoke lower svc (main_initial_state q) = main_path_result lower svc q.
Proof.
  unfold ainvoke, recursion_limit, main_path_result, path_result.
  norm_state. walk_graph q.
Qed.

End Paths.

(** ** Paths through the graph *)

(** X1.  A query that is not a comparison and that the classification
    places outside the college context ends the run after the one
    classification call: [early_response] is the response of the service,
    or the fixed rejection when the answer has no such field,
    [is_college_related] is [False], [safety_check_passed] is what the
    service reported, and the result sets and [final_output] are as in the
    initial state. *)
Theorem rejected_query_exits_early
    (lower : string -> string) (svc : services) (q : string)
    (d : dict) (related safety context : value) :
  is_comparison (lower q) = false ->
  check_and_classify_query svc (VStr q) = Returns (VDict d) ->
  d !! "is_college_related" = Some related ->
  d !! "safety_check_passed" = Some safety ->
  d !! "context" = Some context ->
  is_str context "college" = false ->
  exists st,
    run lower svc q = ([Call Classification (VStr q)], Returns st) /\
    st !! "early_response"
      = Some (dict_get d "response" (VStr REJECTION_RESPONSE)) /\
    st !! "is_college_related" = Some (VBool false) /\
    st !! "safety_check_passed" = Some safety /\
    st !! "snowflake_results" = Some (VList []) /\
    st !! "rag_results" = Some (VList []) /\
    st !! "final_output" = Some VNone.
Proof.
  intros Hb Hc Hr Hs Hctx Hne. rewrite run_paths.
  unfold path_result, classification_verdict.
  rewrite Hb, Hc, Hr, Hs, Hctx, Hne.
  generalize (dict_get d "response" (VStr REJECTION_RESPONSE)).
  intros response. eexists. split; [reflexivity|].
  repeat split; by_compute.
Qed.

Lemma rejected_query_exits_early_witness :
  exists st,
    run ascii_lower
      (constant_services (Returns (reject_classification []))
         (Raises service_down) (Raises service_down))
      sample_query
    = ([Call Classification (VStr sample_query)], Returns st) /\
    st !! "early_response" = Some (VStr REJECTION_RESPONSE) /\
    st !! "is_college_related" = Some (VBool false) /\
    st !! "safety_check_passed" = Some (VBool true) /\
    st !! "snowflake_results" = Some (VList []) /\
    st !! "rag_results" = Some (VList []) /\
    st !! "final_output" = Some VNone.
Proof.
  apply (rejected_query_exits_early ascii_lower
           (constant_services (Returns (reject_classification []))
              (Raises service_down) (Raises service_down))
           sample_query
           (dict_lit ([ ("is_college_related", VBool false);
                        ("safety_check_passed", VBool true);
                        ("context", VStr "other") ] ++ []))
           (VBool false) (VBool true) (VStr "other"));
    vm_compute; reflexivity.
Defined.

(** X2.  The gatekeeper admits a query on the context alone.  When the
    classification has context [college], the run goes on to the primary
    retrieval and ends with [is_college_related] and [safety_check_passed]
    both [True], whatever the classification reported in these two fields.
    *)
Theorem context_alone_admits
    (lower : string -> string) (svc : services) (q : string)
    (d : dict) (related safety : value) :
  is_comparison (lower q) = false ->
  check_and_classify_query svc (VStr q) = Returns (VDict d) ->
  d !! "is_college_related" = Some related ->
  d !! "safety_check_passed" = Some safety ->
  d !! "context" = Some (VStr "college") ->
  exists t st,
    run lower svc q = (t, Returns st) /\
    calls_to PrimaryRetrieval t = 1 /\
    st !! "is_college_related" = Some (VBool true) /\
    st !! "safety_check_passed" = Some (VBool true).
Proof.
  intros Hb Hc Hr Hs Hctx. rewrite run_paths.
  unfold path_result, classification_verdict.
  rewrite Hb, Hc, Hr, Hs, Hctx. cbn [is_str String.eqb].
  replace ("college" =? "college")%string with true by by_compute.
  destruct (primary_success (validate_and_compare svc (VStr q)))
    as [[[c s] r]|].
  - destruct (fallback_condition s r c).
    + destruct (web_success (recommend svc (VStr q))) as [[? ?]|];
        eexists _, _; (split; [reflexivity|]); repeat split; by_compute.
    + eexists _, _. split; [reflexivity|]. repeat split; by_compute.
  - replace (fallback_condition (VList []) (VList []) VNone) with true
      by by_compute.
    destruct (web_success (recommend svc (VStr q))) as [[? ?]|];
      eexists _, _; (split; [reflexivity|]); repeat split; by_compute.
Qed.

Lemma context_alone_admits_witness :
  exists t st,
    run ascii_lower
      (constant_services
         (Returns (VDict (dict_lit
            [ ("is_college_related", VBool false);
              ("safety_check_passed", VBool false);
              ("context", VStr "college") ])))
         (Raises service_down) (Raises service_down))
      sample_query = (t, Returns st) /\
    calls_to PrimaryRetrieval t = 1 /\
    st !! "is_college_related" = Some (VBool true) /\
    st !! "safety_check_passed" = Some (VBool true).
Proof.
  apply (context_alone_admits ascii_lower
           (constant_services
              (Returns (VDict (dict_lit
                 [ ("is_college_related", VBool false);
                   ("safety_check_passed", VBool false);
                   ("context", VStr "college") ])))
              (Raises service_down) (Raises service_down))
           sample_query
           (dict_lit
              [ ("is_college_related", VBool false);
                ("safety_check_passed", VBool false);
                ("context", VStr "college") ])
           (VBool false) (VBool false));
    vm_compute; reflexivity.
Defined.


Lemma sample_run :
  run ascii_lower svc_ok sample_query = (sample_trace, Returns sample_final_state).
Proof. rewrite run_paths. by_vm. Qed.

Lemma comparison_run (svc : services) :
  run ascii_lower svc "Stanford vs MIT"
  = ([], Returns (comparison_final_state "Stanford vs MIT")).
Proof. rewrite run_paths. by_vm. Qed.

Lemma comparison_main_run (svc : services) :
  ainvoke ascii_lower svc (main_initial_state "Stanford vs MIT")
  = ([], Returns (delete "snowflake_results"
                    (delete "rag_results"
                       (comparison_final_state "Stanford vs MIT")))).
Proof. rewrite main_paths. by_vm. Qed.

Lemma sample_main_run :
  ainvoke ascii_lower svc_ok (main_initial_state sample_query)
  = (sample_trace, Returns sample_final_state).
Proof. rewrite main_paths. by_vm. Qed.

(** X3.  The plain path.  For a query that is not a comparison and is
    admitted, a primary answer with a summary text free of the sentinel and
    at least one result list that is not empty ends the run after the
    classification and the primary call, with no fallback call;
    [final_output] carries the query, the summary and the two lists as the
    service returned them, an empty [web], [fallback_used = False] and no
    [fallback_message]. *)
Theorem primary_results_used_without_fallback
    (lower : string -> string) (svc : services) (q : string)
    (c d : dict) (related safety : value) (summary : string)
    (ls lr : list value) :
  is_comparison (lower q) = false ->
  check_and_classify_query svc (VStr q) = Returns (VDict c) ->
  c !! "is_college_related" = Some related ->
  c !! "safety_check_passed" = Some safety ->
  c !! "context" = Some (VStr "college") ->
  validate_and_compare svc (VStr q) = Returns (VDict d) ->
  d !! "combined_agent_results" = Some (VStr summary) ->
  dict_get d "snowflake_results" (VList []) = VList ls ->
  dict_get d "rag_results" (VList []) = VList lr ->
  ls <> [] \/ lr <> [] ->
  ~ substring NO_DATA_SENTINEL summary ->
  let r := run lower svc q in
  r.1 = [ Call Classification (VStr q); Call PrimaryRetrieval (VStr q) ] /\
  final_field r "query" = Some (VStr q) /\
  final_field r "combined_output" = Some (VStr summary) /\
  final_field r "snowflake" = Some (VList ls) /\
  final_field r "rag" = Some (VList lr) /\
  final_field r "web" = Some (VList []) /\
  final_field r "fallback_used" = Some (VBool false) /\
  final_field r "fallback_message" = None.
Proof.
  intros Hb Hc Hr Hs Hctx Hd Hsum Hls Hlr Hne Hno. cbv zeta.
  assert (Hfb : fallback_condition (VList ls) (VList lr) (VStr summary)
                = false).
  { destruct (fallback_condition (VList ls) (VList lr) (VStr summary))
      eqn:Hfb; [|done].
    apply fallback_condition_lists in Hfb; [|right; by exists summary].
    destruct Hfb as [[-> ->]|(s & [= <-] & Hsub)]; [by destruct Hne|done]. }
  rewrite run_paths.
  unfold path_result, classification_verdict, primary_success.
  rewrite Hb, Hc, Hr, Hs, Hctx, Hd, Hsum, Hls, Hlr.
  replace (is_str (VStr "college") "college") with true by by_compute.
  cbn [sized andb]. rewrite Hfb.
  repeat split; by_compute.
Qed.

Lemma primary_results_used_without_fallback_witness :
  let r := run ascii_lower svc_ok sample_query in
  r.1 = sample_trace /\
  final_field r "query" = Some (VStr sample_query) /\
  final_field r "combined_output" = Some (VStr "Stanford MBA") /\
  final_field r "snowflake" = Some (VList [sample_record]) /\
  final_field r "rag" = Some (VList []) /\
  final_field r "web" = Some (VList []) /\
  final_field r "fallback_used" = Some (VBool false) /\
  final_field r "fallback_message" = None.
Proof.
  apply (primary_results_used_without_fallback ascii_lower svc_ok
           sample_query
           (dict_lit [ ("is_college_related", VBool true);
                       ("safety_check_passed", VBool true);
                       ("context", VStr "college") ])
           (dict_lit [ ("combined_agent_results", VStr "Stanford MBA");
                       ("snowflake_results", VList [sample_record]);
                       ("rag_results", VList []) ])
           (VBool true) (VBool true));
    try (vm_compute; reflexivity).
  - left. discriminate.
  - intros H. apply contains_substring in H. vm_compute in H. discriminate.
Defined.

(** X4.  Whatever the query and the services, a run calls the services in
    the order classification, primary retrieval, fallback retrieval, each
    at most once and each with the query: the trace is an initial part of
    these three calls.  There is no retry and no call out of turn. *)
Theorem service_calls_in_order
    (lower : string -> string) (svc : services) (q : string) :
  exists n,
    n <= 3 /\
    (run lower svc q).1
    = take n [ Call Classification (VStr q);
               Call PrimaryRetrieval (VStr q);
               Call FallbackRetrieval (VStr q) ].
Proof.
  rewrite run_paths. unfold path_result.
  destruct (is_comparison (lower q)); [exists 0; split; [lia|reflexivity]|].
  destruct (classification_verdict (check_and_classify_query svc (VStr q)))
    as [|safety response|e];
    [|exists 1; split; [lia|reflexivity]..].
  destruct (primary_success (validate_and_compare svc (VStr q)))
    as [[[c s] r]|].
  - destruct (fallback_condition s r c).
    + destruct (web_success (recommend svc (VStr q))) as [[? ?]|];
        exists 3; split; (lia || reflexivity).
    + exists 2. split; [lia|reflexivity].
  - replace (fallback_condition (VList []) (VList []) VNone) with true
      by by_compute.
    destruct (web_success (recommend svc (VStr q))) as [[? ?]|];
      exists 3; split; (lia || reflexivity).
Qed.

(** X5.  In a run that returns, the fallback retrieval is called at most
    once, and it is called exactly when the final state has
    [is_college_related = True] and its two result sets and its summary
    meet the condition of the adequacy check (both sets empty, or the
    sentinel in the summary). *)
Theorem fallback_called_iff
    (lower : string -> string) (svc : services) (q : string)
    (t : list call) (st : dict) :
  run lower svc q = (t, Returns st) ->
  calls_to FallbackRetrieval t <= 1 /\
  (calls_to FallbackRetrieval t = 1 <->
   st !! "is_college_related" = Some (VBool true) /\
   fallback_condition (dict_get st "snowflake_results" VNone)
                      (dict_get st "rag_results" VNone)
                      (dict_get st "combined_agent_results" VNone) = true).
Proof.
  rewrite run_paths. unfold path_result.
  destruct (is_comparison (lower q)).
  { intros [= <- <-]. split; [vm_compute; lia|].
    split; [intros H; vm_compute in H; discriminate|].
    intros [H _]. vm_compute in H. discriminate. }
  destruct (classification_verdict (check_and_classify_query svc (VStr q)))
    as [|safety response|e]; [| |discriminate].
  2:{ intros [= <- <-]. split; [vm_compute; lia|].
      split; [intros H; vm_compute in H; discriminate|].
      intros [H _]. vm_compute in H. discriminate. }
  destruct (primary_success (validate_and_compare svc (VStr q)))
    as [[[c s] r]|].
  - destruct (fallback_condition s r c) eqn:Hfb.
    + destruct (web_success (recommend svc (VStr q))) as [[? ?]|];
        intros [= <- <-]; (split; [vm_compute; lia|]);
        (split; [intros _|intros _; by_compute]);
        (split; [by_compute|]);
        match goal with
        | |- fallback_condition ?a ?b ?c' = true =>
            replace a with s by by_compute;
            replace b with r by by_compute;
            replace c' with c by by_compute
        end; exact Hfb.
    + intros [= <- <-]. split; [vm_compute; lia|].
      split; [intros H; vm_compute in H; discriminate|].
      intros [_ H]. revert H.
      match goal with
      | |- fallback_condition ?a ?b ?c' = true -> _ =>
          replace a with s by by_compute;
          replace b with r by by_compute;
          replace c' with c by by_compute
      end. by rewrite Hfb.
  - replace (fallback_condition (VList []) (VList []) VNone) with true
      by by_compute.
    destruct (web_success (recommend svc (VStr q))) as [[? ?]|];
      intros [= <- <-]; (split; [vm_compute; lia|]);
      (split; [intros _|intros _; by_compute]);
      split; by_compute.
Qed.

Lemma fallback_called_iff_witness :
  calls_to FallbackRetrieval sample_trace <= 1 /\
  (calls_to FallbackRetrieval sample_trace = 1 <->
   sample_final_state !! "is_college_related" = Some (VBool true) /\
   fallback_condition
     (dict_get sample_final_state "snowflake_results" VNone)
     (dict_get sample_final_state "rag_results" VNone)
     (dict_get sample_final_state "combined_agent_results" VNone) = true).
Proof.
  apply (fallback_called_iff ascii_lower svc_ok sample_query).
  exact sample_run.
Defined.

Ltac mirror_case :=
  match goal with
  | Hd : ?st !! "final_output" = Some (VDict _) |- _ =>
      match st with
      | state_of _ _ _ _ _ _ _ _ ?final _ _ _ =>
          let H := fresh in
          assert (H : st !! "final_output" = Some final) by by_compute;
          rewrite H in Hd; clear H;
          first [discriminate Hd | injection Hd as <-]
      end
  end;
  repeat split; (by_compute || (intros H; vm_compute in H; discriminate)).

Lemma compiled_fields
    (lower : string -> string) (svc : services) (q : string)
    (t : list call) (st d : dict) :
  run lower svc q = (t, Returns st) ->
  st !! "final_output" = Some (VDict d) ->
  st !! "user_query" = Some (VStr q) /\
  st !! "early_response" = Some VNone /\
  d !! "query" = Some (VStr q) /\
  d !! "combined_output" = st !! "combined_agent_results" /\
  d !! "snowflake" = st !! "snowflake_results" /\
  d !! "rag" = st !! "rag_results" /\
  d !! "web" = st !! "web_results" /\
  d !! "fallback_used" = st !! "fallback_used" /\
  (st !! "fallback_used" = Some (VBool true) ->
   d !! "fallback_message" = st !! "fallback_message") /\
  (st !! "fallback_used" = Some (VBool false) ->
   d !! "fallback_message" = None).
Proof.
  rewrite run_paths. unfold path_result.
  destruct (is_comparison (lower q)).
  { intros [= <- <-] Hd. mirror_case. }
  destruct (classification_verdict (check_and_classify_query svc (VStr q)))
    as [|safety response|e]; [| |discriminate].
  2:{ intros [= <- <-] Hd. mirror_case. }
  destruct (primary_success (validate_and_compare svc (VStr q)))
    as [[[c s] r]|].
  - destruct (fallback_condition s r c).
    + destruct (web_success (recommend svc (VStr q))) as [[? ?]|];
        intros [= <- <-] Hd; mirror_case.
    + intros [= <- <-] Hd. mirror_case.
  - replace (fallback_condition (VList []) (VList []) VNone) with true
      by by_compute.
    destruct (web_success (recommend svc (VStr q))) as [[? ?]|];
      intros [= <- <-] Hd; mirror_case.
Qed.

(** X6.  When a run returns a state with a [final_output], the state still
    holds the query it started with and no [early_response], and the
    [final_output] agrees with the state: [query], [combined_output],
    [snowflake], [rag], [web] and [fallback_used] are the state's
    [user_query], [combined_agent_results], [snowflake_results],
    [rag_results], [web_results] and [fallback_used]; [fallback_message] is
    the state's when [fallback_used] is [True] and is left out when it is
    [False], even if the state still holds the error message of the primary
    stage. *)
Theorem final_output_mirrors_state
    (lower : string -> string) (svc : services) (q : string)
    (t : list call) (st d : dict) :
  run lower svc q = (t, Returns st) ->
  st !! "final_output" = Some (VDict d) ->
  st !! "user_query" = Some (VStr q) /\
  st !! "early_response" = Some VNone /\
  d !! "query" = Some (VStr q) /\
  d !! "combined_output" = st !! "combined_agent_results" /\
  d !! "snowflake" = st !! "snowflake_results" /\
  d !! "rag" = st !! "rag_results" /\
  d !! "web" = st !! "web_results" /\
  d !! "fallback_used" = st !! "fallback_used" /\
  (st !! "fallback_used" = Some (VBool true) ->
   d !! "fallback_message" = st !! "fallback_message") /\
  (st !! "fallback_used" = Some (VBool false) ->
   d !! "fallback_message" = None).
Proof. apply compiled_fields. Qed.

Lemma sample_final_output :
  sample_final_state !! "final_output"
  = Some (VDict (final_output_of (VStr sample_query) (VStr "Stanford MBA")
                   (VList [sample_record]) (VList []) (VList [])
                   (VBool false) VNone)).
Proof. by_compute. Qed.

Lemma final_output_mirrors_state_witness :
  let d := final_output_of (VStr sample_query) (VStr "Stanford MBA")
             (VList [sample_record]) (VList []) (VList []) (VBool false)
             VNone in
  let st := sample_final_state in
  st !! "user_query" = Some (VStr sample_query) /\
  st !! "early_response" = Some VNone /\
  d !! "query" = Some (VStr sample_query) /\
  d !! "combined_output" = st !! "combined_agent_results" /\
  d !! "snowflake" = st !! "snowflake_results" /\
  d !! "rag" = st !! "rag_results" /\
  d !! "web" = st !! "web_results" /\
  d !! "fallback_used" = st !! "fallback_used" /\
  (st !! "fallback_used" = Some (VBool true) ->
   d !! "fallback_message" = st !! "fallback_message") /\
  (st !! "fallback_used" = Some (VBool false) ->
   d !! "fallback_message" = None).
Proof.
  exact (final_output_mirrors_state ascii_lower svc_ok sample_query
           sample_trace sample_final_state
           (final_output_of (VStr sample_query) (VStr "Stanford MBA")
              (VList [sample_record]) (VList []) (VList []) (VBool false)
              VNone)
           sample_run sample_final_output).
Defined.



(** ** The gatekeeper on a flagged state *)

(** X8.  In a state already flagged as a comparison, the gatekeeper does not
    call the classification: it sets [is_college_related] and
    [safety_check_passed] to [False], keeps the [early_response] the state
    has (the fixed rejection if it has none), and the edge after it ends the
    run. *)
Theorem gatekeeper_skips_classification
    (svc : services) (st : dict) (q : value) :
  st !! "user_query" = Some q ->
  truthy (dict_get st "is_comparison_query" (VBool false)) = true ->
  exists upd,
    check_prompt_node svc st = ([], Returns upd) /\
    apply_update st upd !! "is_college_related" = Some (VBool false) /\
    apply_update st upd !! "safety_check_passed" = Some (VBool false) /\
    apply_update st upd !! "early_response"
      = Some (dict_get st "early_response" (VStr REJECTION_RESPONSE)) /\
    route gatekeeper (branch_view (apply_update st upd) upd) = Returns END.
Proof.
  intros Hq Hcmp. unfold check_prompt_node, dict_item.
  rewrite Hq, bind_returns, Hcmp.
  generalize (dict_get st "early_response" (VStr REJECTION_RESPONSE)).
  intros early. eexists. split; [reflexivity|].
  assert (Hrel : apply_update st (dict_lit
            [ ("is_college_related", VBool false);
              ("safety_check_passed", VBool false);
              ("early_response", early) ]) !! "is_college_related"
          = Some (VBool false))
    by (apply apply_update_lookup_Some; by_compute).
  split; [exact Hrel|].
  split; [apply apply_update_lookup_Some; by_compute|].
  split; [apply apply_update_lookup_Some; by_compute|].
  unfold route, after_gatekeeper, dict_item, branch_view.
  rewrite lookup_union, Hrel. rewrite union_Some_l. reflexivity.
Qed.

Lemma gatekeeper_skips_classification_witness :
  let st := comparison_final_state "Stanford vs MIT" in
  exists upd,
    check_prompt_node svc_ok st = ([], Returns upd) /\
    apply_update st upd !! "is_college_related" = Some (VBool false) /\
    apply_update st upd !! "safety_check_passed" = Some (VBool false) /\
    apply_update st upd !! "early_response"
      = Some (dict_get st "early_response" (VStr REJECTION_RESPONSE)) /\
    route gatekeeper (branch_view (apply_update st upd) upd) = Returns END.
Proof.
  apply (gatekeeper_skips_classification svc_ok
           (comparison_final_state "Stanford vs MIT")
           (VStr "Stanford vs MIT"));
    vm_compute; reflexivity.
Defined.

(** ** [test_workflow] *)

Lemma test_workflow_run lower svc q :
  test_workflow lower svc q =
  bind (run lower svc q) (fun result =>
    let! final_output := lift (dict_item result "final_output") in
    let! _ := lift (keys_check final_output) in
    let! final_output := lift (dict_item result "final_output") in
    let! snowflake := lift (get_method final_output "snowflake" (VList [])) in
    let! _ := lift (slice_check snowflake) in
    let! final_output := lift (dict_item result "final_output") in
    let! rag := lift (get_method final_output "rag" (VList [])) in
    let! _ := lift (slice_check rag) in
    ret tt).
Proof. reflexivity. Qed.

(** X9.  [test_workflow] raises [AttributeError] after every run that exits
    early: the run has returned, with the calls it made, but its
    [final_output] is [None] and the first print asks it for its keys. *)
Theorem test_workflow_raises_after_early_exit
    (lower : string -> string) (svc : services) (q : string)
    (t : list call) (st : dict) :
  run lower svc q = (t, Returns st) ->
  st !! "final_output" = Some VNone ->
  test_workflow lower svc q = (t, Raises AttributeError).
Proof.
  intros Hrun Hf. rewrite test_workflow_run, Hrun.
  unfold bind at 1. unfold dict_item at 1. rewrite Hf, bind_returns.
  cbn [keys_check]. rewrite bind_raises. by rewrite app_nil_r.
Qed.

Lemma test_workflow_raises_after_early_exit_witness :
  test_workflow ascii_lower svc_ok "Stanford vs MIT"
  = ([], Raises AttributeError).
Proof.
  apply (test_workflow_raises_after_early_exit ascii_lower svc_ok
           "Stanford vs MIT" [] (comparison_final_state "Stanford vs MIT")).
  - apply comparison_run.
  - vm_compute; reflexivity.
Defined.

(** X10.  [test_workflow] returns, with the calls of the run, after every
    run that compiles a [final_output] and whose two result sets are lists.
    *)
Theorem test_workflow_completes_on_lists
    (lower : string -> string) (svc : services) (q : string)
    (t : list call) (st d : dict) (ls lr : list value) :
  run lower svc q = (t, Returns st) ->
  st !! "final_output" = Some (VDict d) ->
  st !! "snowflake_results" = Some (VList ls) ->
  st !! "rag_results" = Some (VList lr) ->
  test_workflow lower svc q = (t, Returns tt).
Proof.
  intros Hrun Hf Hs Hr.
  destruct (compiled_fields lower svc q t st d Hrun Hf)
    as (_ & _ & _ & _ & Hsn & Hrag & _).
  rewrite test_workflow_run, Hrun.
  unfold bind at 1. unfold dict_item. rewrite Hf, !bind_returns.
  cbn [keys_check get_method]. rewrite !bind_returns.
  unfold dict_get. rewrite Hsn, Hs, Hrag, Hr.
  cbn [default from_option id slice_check].
  rewrite !bind_returns. unfold ret. by rewrite app_nil_r.
Qed.

Lemma test_workflow_completes_on_lists_witness :
  test_workflow ascii_lower svc_ok sample_query
  = (sample_trace, Returns tt).
Proof.
  apply (test_workflow_completes_on_lists ascii_lower svc_ok sample_query
           sample_trace sample_final_state
           (final_output_of (VStr sample_query) (VStr "Stanford MBA")
              (VList [sample_record]) (VList []) (VList []) (VBool false)
              VNone)
           [sample_record] []).
  - exact sample_run.
  - exact sample_final_output.
  - vm_compute; reflexivity.
  - vm_compute; reflexivity.
Defined.

(** ** The [__main__] block *)

(** X11.  The input of the [__main__] block, which has no
    [snowflake_results] and no [rag_results], leads to the same calls and
    the same outcome as the input of [test_workflow]: the same exception,
    or a final state equal on every other key, and equal outright once a
    [final_output] has been compiled.  After an early exit the two keys
    stay absent. *)
Theorem main_input_same_results
    (lower : string -> string) (svc : services) (q : string) :
  let r := run lower svc q in
  let r' := ainvoke lower svc (main_initial_state q) in
  r'.1 = r.1 /\
  (forall e, r.2 = Raises e -> r'.2 = Raises e) /\
  (forall st,
     r.2 = Returns st ->
     exists st',
       r'.2 = Returns st' /\
       (forall k, k <> "snowflake_results" -> k <> "rag_results" ->
                  st' !! k = st !! k) /\
       (forall d, st !! "final_output" = Some (VDict d) -> st' = st) /\
       (st !! "final_output" = Some VNone ->
        st' !! "snowflake_results" = None /\ st' !! "rag_results" = None)).
Proof.
  cbv zeta. rewrite main_paths, run_paths. unfold main_path_result.
  destruct (path_result lower svc q) as [t [st|e]]; cbn [fst snd].
  - split; [reflexivity|]. split; [discriminate|].
    intros st0 [= <-]. eexists. split; [reflexivity|].
    unfold dict_get. destruct (st !! "final_output") as [[]|] eqn:Hf;
      cbn [default from_option id is_null];
      (split; [intros k Hs Hr; try reflexivity
              |split; [intros d0 H; (reflexivity || discriminate H)
                      |intros H; try discriminate H]]).
    + by rewrite lookup_delete_ne, lookup_delete_ne.
    + split; [apply lookup_delete_eq|].
      rewrite lookup_delete_ne by done. apply lookup_delete_eq.
    + by rewrite lookup_delete_ne, lookup_delete_ne.
  - split; [reflexivity|].
    split; [intros ? [= <-]; reflexivity | discriminate].
Qed.

Lemma main_block_ainvoke lower svc q :
  main_block lower svc q
  = bind (ainvoke lower svc (main_initial_state q)) report.
Proof. reflexivity. Qed.

(** X12.  After an invocation that exits early, the [__main__] block
    returns when the [early_response] is true in the sense of [if] (a
    string that is not empty), and raises [AttributeError] otherwise: with
    an [early_response] that is [None] or empty it takes the other branch
    and asks the [final_output], which is [None], for [fallback_used]. *)
Theorem main_block_after_early_exit
    (lower : string -> string) (svc : services) (q : string)
    (t : list call) (st : dict) :
  ainvoke lower svc (main_initial_state q) = (t, Returns st) ->
  st !! "final_output" = Some VNone ->
  main_block lower svc q
  = (t, if truthy (dict_get st "early_response" VNone)
        then Returns tt else Raises AttributeError).
Proof.
  intros Hrun Hf. rewrite main_block_ainvoke, Hrun.
  unfold bind at 1, report.
  destruct (truthy (dict_get st "early_response" VNone)) eqn:Ht.
  - unfold dict_item, dict_get in *.
    destruct (st !! "early_response") as [v|]; [|discriminate].
    rewrite bind_returns. unfold ret. by rewrite app_nil_r.
  - unfold dict_get at 1. rewrite Hf. cbn [default from_option id].
    unfold show_final_output. cbn [get_method]. rewrite bind_raises.
    by rewrite app_nil_r.
Qed.

Lemma main_block_after_early_exit_witness :
  main_block ascii_lower svc_ok "Stanford vs MIT" = ([], Returns tt).
Proof.
  rewrite (main_block_after_early_exit ascii_lower svc_ok "Stanford vs MIT"
             [] _ (comparison_main_run svc_ok));
    vm_compute; reflexivity.
Defined.

(** Evaluates the lookups in listed dictionaries. *)
Ltac eval_lookups :=
  repeat match goal with
  | |- context [dict_get ?m ?k ?d] =>
      let v := eval vm_compute in (dict_get m k d) in
      progress replace (dict_get m k d) with v by by_compute
  | |- context [dict_item ?m ?k] =>
      let v := eval vm_compute in (dict_item m k) in
      progress replace (dict_item m k) with v by by_compute
  end.

Lemma show_final_output_no_fallback (q c s r w m : value) :
  show_final_output (VDict (final_output_of q c s r w (VBool false) m))
  = ret tt.
Proof.
  unfold show_final_output, final_output_of.
  cbn [truthy get_method subscript].
  eval_lookups. rewrite bind_returns. cbn [truthy].
  rewrite bind_ret, bind_returns.
  destruct (truthy c); [|reflexivity]. by rewrite bind_returns.
Qed.

Lemma show_final_output_web (q c s r response analyzed m : value) :
  slice_check response = Returns tt ->
  show_final_output
    (VDict (final_output_of q c s r (VList [ web_record response analyzed ])
              (VBool true) m))
  = ret tt.
Proof.
  intros Hsl.
  unfold show_final_output, final_output_of.
  cbn [truthy get_method subscript].
  eval_lookups. rewrite bind_returns. cbn [truthy]. rewrite !bind_returns.
  cbn [show_web show_web_results]. unfold web_record. cbn [get_method].
  eval_lookups. rewrite bind_returns, Hsl, bind_returns.
  cbn [truthy]. rewrite ?bind_ret, ?bind_returns.
  destruct (truthy c); rewrite ?bind_returns; reflexivity.
Qed.

Lemma report_state_of
    (q cmp related safety c s r w final early fallback message : value) :
  report (state_of q cmp related safety c s r w final early fallback message)
  = if truthy early then ret tt else show_final_output final.
Proof.
  unfold report.
  replace (dict_get (state_of q cmp related safety c s r w final early
                       fallback message) "early_response" VNone)
    with early by by_compute.
  replace (dict_item (state_of q cmp related safety c s r w final early
                        fallback message) "early_response")
    with (Returns early) by by_compute.
  replace (dict_get (state_of q cmp related safety c s r w final early
                       fallback message) "final_output" (VDict ∅))
    with final by by_compute.
  by rewrite bind_returns.
Qed.

Ltac settle_state :=
  match goal with
  | |- context [is_null (dict_get ?st ?k ?d)] =>
      replace (is_null (dict_get st k d)) with false by by_compute
  end;
  cbv beta iota; rewrite report_state_of; cbn [truthy].

(** X13.  After an invocation that compiles a [final_output], the
    [__main__] block returns, provided every response of the fallback
    retrieval is a text (the block cuts it to 200 characters). *)
Theorem main_block_shows_results
    (lower : string -> string) (svc : services) (q : string)
    (t : list call) (st d : dict) :
  ainvoke lower svc (main_initial_state q) = (t, Returns st) ->
  st !! "final_output" = Some (VDict d) ->
  (forall w response,
     recommend svc (VStr q) = Returns (VDict w) ->
     w !! "response" = Some response ->
     exists text, response = VStr text) ->
  main_block lower svc q = (t, Returns tt).
Proof.
  intros Hrun Hd Hweb. rewrite main_block_ainvoke, Hrun.
  rewrite main_paths in Hrun. unfold main_path_result, path_result in Hrun.
  assert (Hresp : forall response analyzed,
            web_success (recommend svc (VStr q)) = Some (response, analyzed) ->
            slice_check response = Returns tt).
  { intros response analyzed. unfold web_success.
    destruct (recommend svc (VStr q)) as [[| | | | |w]|]; try discriminate.
    destruct (w !! "response") as [resp|] eqn:Hr; [|discriminate].
    destruct (w !! "results_analyzed"); [|discriminate].
    intros [= <- <-]. by destruct (Hweb w resp eq_refl Hr) as [text ->]. }
  unfold bind at 1.
  enough (report st = ret tt) as -> by (unfold ret; by rewrite app_nil_r).
  destruct (is_comparison (lower q)).
  { injection Hrun as <- <-. vm_compute in Hd. discriminate. }
  destruct (classification_verdict (check_and_classify_query svc (VStr q)))
    as [|safety response|e]; [| |discriminate].
  2:{ injection Hrun as <- <-. vm_compute in Hd. discriminate. }
  clear Hd.
  destruct (primary_success (validate_and_compare svc (VStr q)))
    as [[[c s] r]|].
  - destruct (fallback_condition s r c).
    + destruct (web_success (recommend svc (VStr q)))
        as [[response analyzed]|] eqn:Hw;
        injection Hrun as <- <-; settle_state.
      * eapply show_final_output_web, Hresp, eq_refl.
      * apply show_final_output_no_fallback.
    + injection Hrun as <- <-. settle_state.
      apply show_final_output_no_fallback.
  - replace (fallback_condition (VList []) (VList []) VNone) with true
      in Hrun by by_compute.
    destruct (web_success (recommend svc (VStr q)))
      as [[response analyzed]|] eqn:Hw;
      injection Hrun as <- <-; settle_state.
    + eapply show_final_output_web, Hresp, eq_refl.
    + apply show_final_output_no_fallback.
Qed.

Lemma main_block_shows_results_witness :
  main_block ascii_lower svc_ok sample_query = (sample_trace, Returns tt).
Proof.
  apply (main_block_shows_results ascii_lower svc_ok sample_query
           sample_trace sample_final_state
           (final_output_of (VStr sample_query) (VStr "Stanford MBA")
              (VList [sample_record]) (VList []) (VList []) (VBool false)
              VNone)
           sample_main_run sample_final_output).
  intros w response [= <-] Hr. vm_compute in Hr.
  injection Hr as <-. by eexists.
Defined.

(** ** A state without a query *)

(** X14.  An invocation whose input has no [user_query] raises
    [KeyError] for that key in the first node, before any service is
    called; an input whose [user_query] is not a string raises
    [AttributeError] there. *)
Theorem ainvoke_needs_query
    (lower : string -> string) (svc : services) (input : dict) :
  (input !! "user_query" = None ->
   ainvoke lower svc input = ([], Raises (KeyError "user_query"))) /\
  (forall v, input !! "user_query" = Some v ->
             (forall s, v <> VStr s) ->
             ainvoke lower svc input = ([], Raises AttributeError)).
Proof.
  split.
  - intros Hq. unfold ainvoke, recursion_limit.
    apply run_from_raises. cbn [node_function].
    unfold detect_comparison_node, dict_item.
    by rewrite apply_update_lookup_None, lookup_empty.
  - intros v Hq Hns. unfold ainvoke, recursion_limit.
    apply run_from_raises. cbn [node_function].
    unfold detect_comparison_node, dict_item.
    rewrite (apply_update_lookup_Some _ _ _ v) by (by_compute || done).
    rewrite bind_returns.
    destruct v; try reflexivity. by destruct (Hns s).
Qed.

Lemma ainvoke_needs_query_witness :
  ainvoke ascii_lower svc_ok ∅ = ([], Raises (KeyError "user_query")).
Proof.
  apply (proj1 (ainvoke_needs_query ascii_lower svc_ok ∅)).
  apply lookup_empty.
Defined.

(** X15.  The two retrieval stages read the query inside their [try]: in a
    state without [user_query] neither calls its service nor raises; the
    primary stage takes its failure branch ([fallback_used = True] with the
    error message) and the fallback stage answers an empty [web_results]
    with [fallback_used = False]. *)
Theorem retrieval_stages_survive_missing_query
    (svc : services) (st : dict) :
  st !! "user_query" = None ->
  query_combined_agent_node svc st
    = ([], Returns (dict_update st (dict_lit
         [ ("combined_agent_results", VNone);
           ("snowflake_results", VList []);
           ("rag_results", VList []);
           ("fallback_used", VBool true);
           ("fallback_message", VStr PRIMARY_ERROR_MESSAGE) ]))) /\
  query_web_node svc st
    = ([], Returns (dict_lit
         [ ("web_results", VList []);
           ("fallback_used", VBool false) ])).
Proof.
  intros Hq. split.
  - unfold query_combined_agent_node, dict_item. by rewrite Hq.
  - unfold query_web_node, dict_item. by rewrite Hq.
Qed.

Lemma retrieval_stages_survive_missing_query_witness :
  query_combined_agent_node svc_ok ∅
    = ([], Returns (dict_update ∅ (dict_lit
         [ ("combined_agent_results", VNone);
           ("snowflake_results", VList []);
           ("rag_results", VList []);
           ("fallback_used", VBool true);
           ("fallback_message", VStr PRIMARY_ERROR_MESSAGE) ]))) /\
  query_web_node svc_ok ∅
    = ([], Returns (dict_lit
         [ ("web_results", VList []);
           ("fallback_used", VBool false) ])).
Proof.
  apply retrieval_stages_survive_missing_query. apply lookup_empty.
Defined.
